(** * Air-quality dashboard: data pipeline of [air_quality_dashboard.py]

    A shallow embedding of the data transformations of the dashboard
    (sensor loading with synthetic fallback, research-data loading, the
    filter / statistics callback and the research-findings callback),
    followed by the properties its specification states about them.

    Conventions of the embedding:
    - a frame read from CSV is a list of named columns of cells, a
      cleaned or aggregated frame a list of rows; missing values
      ([NaN], [NaT]) are [NA] or [None];
    - floating-point numbers are idealised as rationals ([Q]), kept in
      reduced form;
    - timestamps are integers (nanoseconds since the epoch);
    - Python exceptions are the [Err] case of [result];
    - objects that are mutated in place live in a [store] and are
      referred to by location. *)

From Stdlib Require Import ZArith QArith Qround Qabs String Ascii List Lia Lqa.
From Stdlib Require Import DecimalString.
From stdpp Require Import base option list gmap strings pretty sorting.

Local Open Scope Z_scope.
Local Open Scope string_scope.
Local Open Scope list_scope.

(** ** Exceptions and fallible computations *)

Inductive exn :=
| FileNotFoundError
| ParserError
| KeyError (column : string)
| AttributeError
| ValueError
| TypeError
| NameError (name : string).

Inductive result (A : Type) :=
| Ok (a : A)
| Err (e : exn).
Arguments Ok {A} a.
Arguments Err {A} e.

Definition rbind {A B} (m : result A) (k : A → result B) : result B :=
  match m with
  | Ok a => k a
  | Err e => Err e
  end.

Global Instance result_bind : MBind result := λ A B k m, rbind m k.
Global Instance result_ret : MRet result := λ A a, Ok a.

Fixpoint rmapM {A B} (f : A → result B) (l : list A) : result (list B) :=
  match l with
  | [] => Ok []
  | x :: l' =>
      y ← f x; ys ← rmapM f l'; Ok (y :: ys)
  end.

Definition is_err {A} (m : result A) : bool :=
  match m with Ok _ => false | Err _ => true end.

(** ** Cells, tables and the file system *)

(** A cell of a frame column: missing, a Python string, or a number. *)
Inductive cell :=
| NA
| Str (s : string)
| Num (q : Q).

Global Instance Q_eq_dec : EqDecision Q.
Proof. solve_decision. Defined.
Global Instance cell_eq_dec : EqDecision cell.
Proof. solve_decision. Defined.
Global Instance exn_eq_dec : EqDecision exn.
Proof. solve_decision. Defined.

(** The text of a CSV file after lexing: a header and the records, a
    field that pandas reads as missing (an empty one, or one of its
    markers for a missing value) being [None]. *)
Record csv_text := CsvText {
  csv_header : list string;
  csv_records : list (list (option string))
}.

(** The dtype of a column, as far as the program can tell the
    difference: [object] columns hold strings and carry the [.str]
    accessor, numeric ones do not. *)
Inductive dtype := ObjectDtype | NumericDtype.

Global Instance dtype_eq_dec : EqDecision dtype.
Proof. solve_decision. Defined.

Record column := Column {
  col_dtype : dtype;
  col_cells : list cell
}.

(** A frame as [pd.read_csv] returns it: named columns of equal length. *)
Definition raw_frame := list (string * column).

Abbreviation file_system := (gmap string csv_text).

Definition notna (c : cell) : bool :=
  match c with NA => false | _ => true end.

Section Dashboard.

(** The numeric-literal parser of pandas ([read_csv] inference and
    [pd.to_numeric]), the date-time parser of [pd.to_datetime] and what
    [pd.to_datetime] makes of a number. *)
Variable parse_number : string → option Q.
Variable parse_datetime : string → option Z.
Variable datetime_of_number : Q → option Z.

Definition number_cell (s : string) : cell :=
  match parse_number s with
  | Some q => Num (Qred q)
  | None => NA
  end.

(** [read_csv] type inference for one column: a column all of whose
    present fields are numeric literals gets a numeric dtype (a column of
    missing fields only is float64), every other column is of object
    dtype and holds strings.  Columns listed in [dtype=str] and the
    columns of a file without records are of object dtype. *)
Definition all_numeric (fields : list (option string)) : bool :=
  forallb (fun f => match f with
                    | None => true
                    | Some s => bool_decide (is_Some (parse_number s))
                    end) fields.

Definition object_cell (f : option string) : cell :=
  match f with None => NA | Some s => Str s end.

Definition numeric_cell (f : option string) : cell :=
  match f with None => NA | Some s => number_cell s end.

Definition infer_column (forced_str : bool) (fields : list (option string))
  : column :=
  if forced_str || bool_decide (fields = []) || negb (all_numeric fields)
  then Column ObjectDtype (map object_cell fields)
  else Column NumericDtype (map numeric_cell fields).

Definition field_at (j : nat) (record : list (option string)) : option string :=
  default None (record !! j).

Definition well_formed_record (width : nat) (record : list (option string))
  : bool :=
  bool_decide (length record ≤ width)%nat.

Fixpoint enumerate_from {A} (i : nat) (l : list A) : list (nat * A) :=
  match l with
  | [] => []
  | x :: l' => (i, x) :: enumerate_from (S i) l'
  end.

(** [pd.read_csv(path, dtype={c: str for c in str_columns})]. *)
Definition read_csv (fs : file_system) (path : string)
    (str_columns : list string) : result raw_frame :=
  match fs !! path with
  | None => Err FileNotFoundError
  | Some t =>
      if forallb (well_formed_record (length (csv_header t))) (csv_records t)
      then Ok (map (fun '(j, name) =>
                      (name,
                       infer_column (bool_decide (name ∈ str_columns))
                         (map (field_at j) (csv_records t))))
                 (enumerate_from 0 (csv_header t)))
      else Err ParserError
  end.

(** [df[name]]. *)
Fixpoint get_column (df : raw_frame) (name : string) : result column :=
  match df with
  | [] => Err (KeyError name)
  | (n, c) :: df' => if decide (n = name) then Ok c else get_column df' name
  end.

(** [df[name] = c]: replaces the column in place, or appends it. *)
Fixpoint set_column (df : raw_frame) (name : string) (c : column) : raw_frame :=
  match df with
  | [] => [(name, c)]
  | (n, c') :: df' =>
      if decide (n = name) then (n, c) :: df'
      else (n, c') :: set_column df' name c
  end.

(** ** String cleaning and coercions *)

Definition quote : ascii := "'"%char.

Fixpoint lstrip_quote (s : string) : string :=
  match s with
  | String c s' => if decide (c = quote) then lstrip_quote s' else s
  | EmptyString => EmptyString
  end.

(** Python's [s.strip("'")]. *)
Definition strip_quote (s : string) : string :=
  String.rev (lstrip_quote (String.rev (lstrip_quote s))).

(** The [.str] accessor exists only on columns of object dtype; on a
    numeric column it raises. *)
Definition str_accessor (c : column) : result (list cell) :=
  match col_dtype c with
  | ObjectDtype => Ok (col_cells c)
  | NumericDtype => Err AttributeError
  end.

Definition strip_cell (c : cell) : cell :=
  match c with
  | Str s => Str (strip_quote s)
  | _ => NA
  end.

(** [col.str.strip("'")]. *)
Definition str_strip (c : column) : result column :=
  cells ← str_accessor c; Ok (Column ObjectDtype (map strip_cell cells)).

(** [pd.to_datetime(col)], with the default [errors='raise']. *)
Definition to_datetime_cell (c : cell) : result (option Z) :=
  match c with
  | NA => Ok None
  | Str s => match parse_datetime s with
             | Some t => Ok (Some t)
             | None => Err ValueError
             end
  | Num q => match datetime_of_number q with
             | Some t => Ok (Some t)
             | None => Err ValueError
             end
  end.

Definition to_datetime (c : column) : result (list (option Z)) :=
  rmapM to_datetime_cell (col_cells c).

(** [pd.to_numeric(col, errors='coerce')]. *)
Definition to_numeric_cell (c : cell) : option Q :=
  match c with
  | NA => None
  | Str s => match parse_number s with
             | Some q => Some (Qred q)
             | None => None
             end
  | Num q => Some q
  end.

Definition to_numeric (c : column) : list (option Q) :=
  map to_numeric_cell (col_cells c).

(** ** Numeric reductions, skipping missing values *)

Definition Qsum (xs : list Q) : Q := foldr Qplus 0%Q xs.

Definition mean (xs : list Q) : Q :=
  Qred (Qsum xs / inject_Z (Z.of_nat (length xs))).

Definition present {A} (vs : list (option A)) : list A := omap id vs.

(** [Series.mean()] with the default [skipna=True]. *)
Definition nanmean (vs : list (option Q)) : option Q :=
  match present vs with
  | [] => None
  | x :: xs => Some (mean (x :: xs))
  end.

Definition Qmax (a b : Q) : Q := if Qle_bool a b then b else a.
Definition Qmin (a b : Q) : Q := if Qle_bool a b then a else b.

(** [Series.max()] and [Series.min()]. *)
Definition nanmax (vs : list (option Q)) : option Q :=
  match present vs with
  | [] => None
  | x :: xs => Some (foldl Qmax x xs)
  end.

Definition nanmin (vs : list (option Q)) : option Q :=
  match present vs with
  | [] => None
  | x :: xs => Some (foldl Qmin x xs)
  end.

(** ** [groupby]: grouping rows by key, groups sorted by key *)

Section GroupBy.
Context {K V : Type} `{EqDecision K}.
Variable leb : K → K → bool.

Fixpoint add_to_group (k : K) (v : V) (groups : list (K * list V))
  : list (K * list V) :=
  match groups with
  | [] => [(k, [v])]
  | (k', vs) :: groups' =>
      if decide (k = k') then (k', vs ++ [v]) :: groups'
      else (k', vs) :: add_to_group k v groups'
  end.

Fixpoint group_rows (rows : list (K * V)) (groups : list (K * list V))
  : list (K * list V) :=
  match rows with
  | [] => groups
  | (k, v) :: rows' => group_rows rows' (add_to_group k v groups)
  end.

Fixpoint insert_group (g : K * list V) (gs : list (K * list V))
  : list (K * list V) :=
  match gs with
  | [] => [g]
  | h :: gs' =>
      if leb (fst g) (fst h) then g :: h :: gs'
      else h :: insert_group g gs'
  end.

Definition sort_groups (gs : list (K * list V)) : list (K * list V) :=
  foldr insert_group [] gs.

(** [rows.groupby(key)]: one group per distinct key, in key order. *)
Definition groupby (rows : list (K * V)) : list (K * list V) :=
  sort_groups (group_rows rows []).
End GroupBy.

(** ** Sensor data loader *)

(** A row of the cleaned sensor frame (lines 20-39 of the source). *)
Record sensor_row := SensorRow {
  sr_sensor_id : option string;
  sr_sensor_type : option string;
  sr_location : option string;
  sr_value_type : option string;
  sr_timestamp : option Z;
  sr_air_quality_index : option Q
}.

(** A row of the aggregated sensor frame, [AggregatedReading]. *)
Record reading := Reading {
  timestamp : Z;
  location : string;
  sensor_id : string;
  air_quality_index : option Q
}.

Global Instance reading_eq_dec : EqDecision reading.
Proof. solve_decision. Defined.

Definition cell_str (c : cell) : option string :=
  match c with Str s => Some s | _ => None end.

Definition string_columns : list string :=
  ["sensor_id"; "sensor_type"; "location"; "value_type"].

(** The loop [for col in string_columns: df[col] = df[col].str.strip("'")]. *)
Fixpoint strip_columns (cols : list string) (df : raw_frame)
  : result raw_frame :=
  match cols with
  | [] => Ok df
  | col :: cols' =>
      c ← get_column df col;
      c' ← str_strip c;
      strip_columns cols' (set_column df col c')
  end.

Definition zip_sensor_rows (sid sty loc vty : list cell)
    (ts : list (option Z)) (aqi : list (option Q)) : list sensor_row :=
  map (fun '(a, (b, (c, (d, (e, f))))) =>
         SensorRow (cell_str a) (cell_str b) (cell_str c) (cell_str d) e f)
      (zip sid (zip sty (zip loc (zip vty (zip ts aqi))))).

Definition measurement_types : list string := ["P0"; "P1"; "P2"].

(** [df['value_type'].isin(['P0', 'P1', 'P2'])]. *)
Definition is_measurement (r : sensor_row) : bool :=
  match sr_value_type r with
  | Some v => bool_decide (v ∈ measurement_types)
  | None => false
  end.

(** Lines 20-36: read, clean and coerce; one row per record of the file. *)
Definition sensor_rows (fs : file_system) (file_path : string)
  : result (list sensor_row) :=
  df ← read_csv fs file_path ["sensor_id"; "location"];
  df ← strip_columns string_columns df;
  ts_col ← get_column df "timestamp";
  ts ← to_datetime ts_col;
  aqi_col ← get_column df "air_quality_index";
  aqi_str ← str_strip aqi_col;
  let aqi := to_numeric aqi_str in
  sid ← get_column df "sensor_id";
  sty ← get_column df "sensor_type";
  loc ← get_column df "location";
  vty ← get_column df "value_type";
  Ok (zip_sensor_rows (col_cells sid) (col_cells sty) (col_cells loc)
        (col_cells vty) ts aqi).

(** Line 39: only the air-quality measurements are kept. *)
Definition clean_sensor_data (fs : file_system) (file_path : string)
  : result (list sensor_row) :=
  rows ← sensor_rows fs file_path;
  Ok (filter (fun r => is_measurement r) rows).

Definition sensor_key : Type := Z * string * string.

(** The group key of a row; [groupby] drops rows with a missing key
    component ([dropna=True]). *)
Definition sensor_row_key (r : sensor_row) : option sensor_key :=
  t ← sr_timestamp r;
  l ← sr_location r;
  s ← sr_sensor_id r;
  Some (t, l, s).

Definition keyed_row (r : sensor_row) : option (sensor_key * option Q) :=
  k ← sensor_row_key r; Some (k, sr_air_quality_index r).

Definition sensor_key_leb (a b : sensor_key) : bool :=
  let '(t1, l1, s1) := a in
  let '(t2, l2, s2) := b in
  if (t1 <? t2)%Z then true
  else if (t2 <? t1)%Z then false
  else match String.compare l1 l2 with
       | Lt => true
       | Gt => false
       | Eq => String.leb s1 s2
       end.

(** Line 42: [df.groupby(['timestamp', 'location', 'sensor_id'])
    ['air_quality_index'].mean().reset_index()]. *)
Definition aggregate (rows : list sensor_row) : list reading :=
  map (fun '((t, l, s), vs) => Reading t l s (nanmean vs))
      (groupby sensor_key_leb (omap keyed_row rows)).

(** The body of the [try] block. *)
Definition sensor_pipeline (fs : file_system) (file_path : string)
  : result (list reading) :=
  df ← clean_sensor_data fs file_path;
  Ok (aggregate df).

(** ** Synthetic data generator *)

(** The state of numpy's global generator and [np.random.randint(lo, hi)]. *)
Variable rng : Type.
Variable randint : Z → Z → rng → Z * rng.

Definition day_ns : Z := 86400000000000.

(** [pd.date_range(end=now, periods=n, freq='D')]. *)
Definition date_range (now : Z) (periods : nat) : list Z :=
  map (fun i => now - Z.of_nat (periods - 1 - i) * day_ns) (seq 0 periods).

Definition sample_locations : list string :=
  ["Location A"; "Location B"; "Location C"].

Definition sensor_label (k : Z) : string := "SENSOR_" +:+ pretty k.

(** The inner loop [for date in dates]. *)
Fixpoint sample_dates_loop (loc : string) (dates : list Z) (g : rng)
  : list reading * rng :=
  match dates with
  | [] => ([], g)
  | date :: dates' =>
      let '(aqi, g1) := randint 0 200 g in
      let '(k, g2) := randint 1 5 g1 in
      let '(rows, g3) := sample_dates_loop loc dates' g2 in
      (Reading date loc (sensor_label k) (Some (inject_Z aqi)) :: rows, g3)
  end.

(** The outer loop [for loc in locations]. *)
Fixpoint sample_locations_loop (locs : list string) (dates : list Z) (g : rng)
  : list reading * rng :=
  match locs with
  | [] => ([], g)
  | loc :: locs' =>
      let '(rows, g1) := sample_dates_loop loc dates g in
      let '(rows', g2) := sample_locations_loop locs' dates g1 in
      (rows ++ rows', g2)
  end.

Definition create_sample_data (now : Z) (g : rng) : list reading * rng :=
  sample_locations_loop sample_locations (date_range now 30) g.

(** The loader: the pipeline, or the synthetic data when it raised. *)
Definition load_and_process_sensor_data (fs : file_system) (now : Z) (g : rng)
    (file_path : string) : list reading * rng :=
  match sensor_pipeline fs file_path with
  | Ok df_grouped => (df_grouped, g)
  | Err _ => create_sample_data now g
  end.

(** ** Frames in the store *)

(** A sensor frame object: the aggregated readings and, once line 250
    has run on it, the added [date] column. *)
Record frame := Frame {
  f_rows : list reading;
  f_date : option (list Z)
}.

Abbreviation ref := nat.
Abbreviation store := (gmap ref frame).

(** Computations that read and write the store and may raise. *)
Definition M (A : Type) : Type := store → result A * store.

Global Instance M_ret : MRet M := λ A a σ, (Ok a, σ).
Global Instance M_bind : MBind M := λ A B k m σ,
  match m σ with
  | (Ok a, σ') => k a σ'
  | (Err e, σ') => (Err e, σ')
  end.

Definition raise {A} (e : exn) : M A := λ σ, (Err e, σ).

Definition new_frame (f : frame) : M ref := λ σ,
  let l := fresh (dom σ) in (Ok l, <[l := f]> σ).

Definition get_frame (l : ref) : M frame := λ σ,
  match σ !! l with
  | Some f => (Ok f, σ)
  | None => (Err (NameError "frame"), σ)
  end.

Definition set_frame (l : ref) (f : frame) : M unit := λ σ,
  (Ok (), <[l := f]> σ).

Fixpoint forM {A B} (f : A → M B) (l : list A) : M (list B) :=
  match l with
  | [] => mret []
  | x :: l' => y ← f x; ys ← forM f l'; mret (y :: ys)
  end.

(** Rows of [l] at which the mask holds. *)
Definition mask_rows {A} (mask : list bool) (l : list A) : list A :=
  map snd (filter (fun p => fst p = true) (zip mask l)).

Definition select_frame (p : reading → bool) (f : frame) : frame :=
  Frame (filter (fun r => p r) (f_rows f))
        (mask_rows (map p (f_rows f)) <$> f_date f).

(** [df.copy()]: a new object with the same contents. *)
Definition df_copy (l : ref) : M ref :=
  f ← get_frame l; new_frame f.

(** [df[mask]]: boolean indexing builds a new object. *)
Definition df_select (l : ref) (p : reading → bool) : M ref :=
  f ← get_frame l; new_frame (select_frame p f).

Definition date_of (t : Z) : Z := t / day_ns.

(** [df['date'] = df['timestamp'].dt.date]: writes into the object. *)
Definition df_set_date (l : ref) : M unit :=
  f ← get_frame l;
  set_frame l (Frame (f_rows f) (Some (map (fun r => date_of (timestamp r))
                                           (f_rows f)))).

(** ** Figures and page content handed to the rendering layer *)

Inductive figure :=
| LineChart (title : string) (points : list reading)
| DailyBarChart (title : string) (points : list (string * Z * option Q))
| BarChart (title : string) (points : list (cell * cell))
| ScatterChart (title : string) (points : list (cell * cell)) (size : list Z)
| EmptyBarChart.

#[local] Unset Elimination Schemes.
Inductive html :=
| Div (children : list html)
| DivText (text : string)
| H2 (text : string)
| H3 (text : string)
| H4 (text : string)
| P (text : string)
| Ul (items : list html)
| Li (text : string)
| Graph (fig : figure).
#[local] Set Elimination Schemes.

(** ** Formatting *)

Definition round_half_even (q : Q) : Z :=
  let f := Qfloor q in
  match (q - inject_Z f ?= 1 # 2)%Q with
  | Lt => f
  | Gt => f + 1
  | Eq => if Z.even f then f else f + 1
  end.

Definition two_digits (d : Z) : string := pretty (d / 10) +:+ pretty (d mod 10).

Definition render_hundredths (negative : bool) (n : Z) : string :=
  (if negative then "-" else "") +:+ pretty (n / 100) +:+ "." +:+
  two_digits (n mod 100).

(** [f"{q:.2f}"] of a number. *)
Definition fixed2 (q : Q) : string :=
  render_hundredths (bool_decide (Qnum q < 0))
    (Z.abs (round_half_even (q * 100))).

(** [f"{v:.2f}"] of a value that may be [nan]. *)
Definition format_2f (v : option Q) : string :=
  match v with
  | None => "nan"
  | Some q => fixed2 q
  end.

(** ** The filter callback *)

(** Python truthiness of the callback arguments. *)
Definition truthy_list {A} (l : option (list A)) : bool :=
  match l with
  | Some (_ :: _) => true
  | _ => false
  end.

Definition truthy_str (s : option string) : bool :=
  match s with
  | Some "" => false
  | Some _ => true
  | None => false
  end.

(** A comparison of the date-time column with a string: the string is
    parsed, and the comparison raises when it is not a date. *)
Definition parse_bound (s : option string) : M Z :=
  match s ≫= parse_datetime with
  | Some t => mret t
  | None => raise TypeError
  end.

(** [filtered_df['location'].isin(selected_locations)]. *)
Definition location_isin (selected : option (list string)) (r : reading) : bool :=
  bool_decide (location r ∈ default [] selected).

Definition timestamp_between (s e : Z) (r : reading) : bool :=
  (s <=? timestamp r)%Z && (timestamp r <=? e)%Z.

(** Lines 229-238. *)
Definition filter_step (sensor_data : ref) (selected_locations : option (list string))
    (start_date end_date : option string) : M ref :=
  filtered_df ← df_copy sensor_data;
  filtered_df ← (if truthy_list selected_locations
                 then df_select filtered_df (location_isin selected_locations)
                 else mret filtered_df);
  if truthy_str start_date && truthy_str end_date
  then s ← parse_bound start_date;
       e ← parse_bound end_date;
       df_select filtered_df (timestamp_between s e)
  else mret filtered_df.

Definition string_Z_leb (a b : string * Z) : bool :=
  match String.compare (fst a) (fst b) with
  | Lt => true
  | Gt => false
  | Eq => (snd a <=? snd b)%Z
  end.

(** Line 251: [groupby(['location', 'date'])['air_quality_index'].mean()]. *)
Definition daily_average (l : ref) : M (list (string * Z * option Q)) :=
  f ← get_frame l;
  match f_date f with
  | None => raise (KeyError "date")
  | Some dates =>
      mret (map (fun '(k, vs) => (k, nanmean vs))
              (groupby string_Z_leb
                 (zip_with (fun r d => ((location r, d), air_quality_index r))
                    (f_rows f) dates)))
  end.

(** Lines 263-270: the statistics block of one location. *)
Definition location_statistics (loc : string) (loc_data : list reading) : html :=
  let aqi := map air_quality_index loc_data in
  Div [ H3 ("Statistics for Location " +:+ loc);
        P ("Average AQI: " +:+ format_2f (nanmean aqi));
        P ("Maximum AQI: " +:+ format_2f (nanmax aqi));
        P ("Minimum AQI: " +:+ format_2f (nanmin aqi));
        P ("Number of readings: " +:+ pretty (length loc_data)) ].

Definition location_is (loc : string) (r : reading) : bool :=
  bool_decide (location r = loc).

(** Lines 261-270: the loop [for loc in selected_locations]; iterating
    over [None] raises. *)
Definition statistics (filtered_df : ref) (selected_locations : option (list string))
  : M (list html) :=
  match selected_locations with
  | None => raise TypeError
  | Some locs =>
      forM (fun loc =>
              loc_data ← df_select filtered_df (location_is loc);
              d ← get_frame loc_data;
              mret (location_statistics loc (f_rows d)))
           locs
  end.

Definition update_figures (sensor_data : ref)
    (selected_locations : option (list string))
    (start_date end_date : option string) : M (figure * figure * html) :=
  filtered_df ← filter_step sensor_data selected_locations start_date end_date;
  shown ← get_frame filtered_df;
  let air_quality_fig := LineChart "Air Quality Index Over Time" (f_rows shown) in
  _ ← df_set_date filtered_df;
  daily_avg ← daily_average filtered_df;
  let trends_fig := DailyBarChart "Daily Average Air Quality Index" daily_avg in
  stats ← statistics filtered_df selected_locations;
  mret (air_quality_fig, trends_fig, Div stats).

(** ** Research data loader *)

Definition numeric_column (vs : list (option Q)) : column :=
  Column NumericDtype (map (from_option Num NA) vs).

Definition cell_leb (a b : cell) : bool :=
  match a, b with
  | Num p, Num q => Qle_bool p q
  | Str s, Str t => String.leb s t
  | NA, _ => true
  | Num _, Str _ => true
  | _, _ => false
  end.

(** [Series.count()]: the number of values that are not missing. *)
Definition count_notna (vs : list cell) : nat :=
  length (filter (fun c => notna c = true) vs).

(** Line 89: [groupby('category')['detail'].count().reset_index()];
    rows without a category belong to no group. *)
Definition count_by_category (category detail : list cell) : list (cell * nat) :=
  map (fun '(k, vs) => (k, count_notna vs))
      (groupby cell_leb
         (filter (fun p => notna (fst p) = true) (zip category detail))).

Definition load_research_findings (fs : file_system)
    (findings_file correlations_file : string)
  : result (raw_frame * raw_frame * list (cell * nat)) :=
  findings_df ← read_csv fs findings_file [];
  correlations_df ← read_csv fs correlations_file [];
  category ← get_column findings_df "category";
  detail ← get_column findings_df "detail";
  let findings_by_category :=
    count_by_category (col_cells category) (col_cells detail) in
  value ← get_column correlations_df "value";
  let correlations_df :=
    set_column correlations_df "value" (numeric_column (to_numeric value)) in
  Ok (findings_df, correlations_df, findings_by_category).

(** ** Research findings callback *)

(** [df[mask]] on a frame read from CSV. *)
Definition df_mask (df : raw_frame) (mask : list bool) : raw_frame :=
  map (fun '(name, c) =>
         (name, Column (col_dtype c) (mask_rows mask (col_cells c)))) df.

(** The data a [plotly.express] chart takes from a frame: the [x] and
    [y] columns, which must exist. *)
Definition chart_points (df : raw_frame) (x y : string)
  : result (list (cell * cell)) :=
  match get_column df x, get_column df y with
  | Ok cx, Ok cy => Ok (zip (col_cells cx) (col_cells cy))
  | _, _ => Err ValueError
  end.

Definition cell_is (s : string) (c : cell) : bool := bool_decide (c = Str s).

Definition cell_isin (l : list string) (c : cell) : bool :=
  match c with
  | Str s => bool_decide (s ∈ l)
  | _ => false
  end.

Definition create_finding_card (title : string) (points : list string) : html :=
  Div [ H4 title; Ul (map Li points) ].

Definition key_findings_grid : html :=
  Div [ H3 "Key Findings";
        Div [ create_finding_card "Pollution Sources"
                [ "Traffic-related emissions";
                  "Indoor air pollution (vapors, dusts, smoke)";
                  "Waste management practices" ];
              create_finding_card "Vulnerable Groups"
                [ "Children with developing lungs";
                  "Preterm/low birth weight infants";
                  "Residents with limited healthcare access" ];
              create_finding_card "Study Limitations"
                [ "Cross-sectional design";
                  "Limited longitudinal data";
                  "Indirect waste pollution inference" ] ] ].

(** The [try] block of [create_health_correlations_page]; its argument is
    the module-level name [correlations_df], [None] when it is unbound. *)
Definition health_correlations_body (correlations_df : option raw_frame)
  : result html :=
  df ← from_option Ok (Err (NameError "correlations_df")) correlations_df;
  parameter ← get_column df "parameter";
  let pm25_data :=
    df_mask df (map (cell_is "PM2.5 Levels") (col_cells parameter)) in
  value ← get_column df "value";
  let health_data :=
    df_mask df (zip_with andb
                  (map (cell_is "Health Implications") (col_cells parameter))
                  (map notna (col_cells value))) in
  pm25_points ← chart_points pm25_data "detail" "value";
  health_points ← chart_points health_data "detail" "value";
  Ok (Div [ H2 "Health Impact Analysis";
            Div [ H3 "PM2.5 Concentration Measurements";
                  Graph (BarChart "PM2.5 Concentration Measurements"
                           pm25_points) ];
            Div [ H3 "Health Risk Metrics";
                  Graph (ScatterChart "Health Risk Indicators" health_points
                           (replicate (length health_points) 20)) ];
            key_findings_grid ]).

Definition create_health_correlations_page (correlations_df : option raw_frame)
  : html :=
  match health_correlations_body correlations_df with
  | Ok page => page
  | Err _ => DivText "Error loading health correlations page"
  end.

(** Lines 284-314 of [update_research_findings]: the data is read again
    and the two charts are made from it. *)
Definition research_charts (fs : file_system) : result (figure * figure) :=
  correlations_df ← read_csv fs "health_correlations.csv" [];
  value ← get_column correlations_df "value";
  let correlations_df :=
    set_column correlations_df "value" (numeric_column (to_numeric value)) in
  value ← get_column correlations_df "value";
  let valid_data := df_mask correlations_df (map notna (col_cells value)) in
  metric_points ← chart_points valid_data "parameter" "value";
  let health_metrics := BarChart "Health Impact Metrics" metric_points in
  parameter ← get_column correlations_df "parameter";
  let trends_data :=
    df_mask correlations_df
      (map (cell_isin ["PM2.5 Levels"; "Health Implications"])
           (col_cells parameter)) in
  trends_value ← get_column trends_data "value";
  let trends_valid := df_mask trends_data (map notna (col_cells trends_value)) in
  trend_points ← chart_points trends_valid "parameter" "value";
  let trends_viz :=
    ScatterChart "Health Correlations Overview" trend_points
      (replicate (length trend_points) 20) in
  Ok (health_metrics, trends_viz).

(** The [try] block of [update_research_findings]; the key findings come
    from the module-level [correlations_df], not from the frame read in
    [research_charts]. *)
Definition research_findings_body (fs : file_system)
    (correlations_global : option raw_frame)
  : result (figure * figure * html) :=
  charts ← research_charts fs;
  let key_findings := create_health_correlations_page correlations_global in
  Ok (charts.1, charts.2, key_findings).

Definition error_outputs : figure * figure * html :=
  (EmptyBarChart, EmptyBarChart, DivText "Error loading research findings").

Definition update_research_findings (fs : file_system)
    (correlations_global : option raw_frame) (tab : option string)
  : figure * figure * html :=
  match research_findings_body fs correlations_global with
  | Ok outputs => outputs
  | Err _ => error_outputs
  end.

End Dashboard.

Abbreviation ref := nat.
Abbreviation store := (gmap ref frame).

(** ** The filter controls of the layout *)

(** [Series.unique()]: the distinct values, in the order in which they
    first appear. *)
Fixpoint unique_from {A} `{EqDecision A} (seen l : list A) : list A :=
  match l with
  | [] => seen
  | x :: l' => unique_from (if decide (x ∈ seen) then seen else seen ++ [x]) l'
  end.

Definition unique {A} `{EqDecision A} (l : list A) : list A :=
  unique_from [] l.

(** [Series.min()] and [Series.max()] of a date-time column that has no
    missing value; [None] is [NaT], the result on an empty column. *)
Definition series_min (l : list Z) : option Z :=
  match l with
  | [] => None
  | t :: ts => Some (foldl Z.min t ts)
  end.

Definition series_max (l : list Z) : option Z :=
  match l with
  | [] => None
  | t :: ts => Some (foldl Z.max t ts)
  end.

(** Indexing an empty array, the one error of the layout. *)
Inductive layout_error := IndexError.

(** The properties of the location dropdown (options as label and
    value) and of the date range picker. *)
Record filter_controls := FilterControls {
  dropdown_options : list (string * string);
  dropdown_value : list string;
  picker_start_date : option Z;
  picker_end_date : option Z
}.

(** Lines 116-131: the two controls are made of the module-level
    dataset when the module is loaded; [unique()[0]] raises on a dataset
    without rows. *)
Definition layout_controls (sensor_data : list reading)
  : layout_error + filter_controls :=
  let locations := unique (location <$> sensor_data) in
  let options := (fun loc => ("Location " +:+ loc, loc)) <$> locations in
  match locations with
  | [] => inl IndexError
  | first :: _ =>
      inr (FilterControls options [first]
             (series_min (timestamp <$> sensor_data))
             (series_max (timestamp <$> sensor_data)))
  end.

(** * Specification-side vocabulary *)

Section GroupVocabulary.
Context {K V : Type} `{EqDecision K}.

(** The values of the rows with key [k], in row order. *)
Definition values_at (k : K) (rows : list (K * V)) : list V :=
  map snd (filter (fun p => fst p = k) rows).

(** The members of group [k], none when there is no such group. *)
Fixpoint members (k : K) (g : list (K * list V)) : list V :=
  match g with
  | [] => []
  | (k', vs) :: g' => if decide (k = k') then vs else members k g'
  end.
End GroupVocabulary.

(** All columns of a frame have [n] cells. *)
Definition frame_height (n : nat) (df : raw_frame) : Prop :=
  Forall (fun nc => length (col_cells nc.2) = n) df.

(** The position of the first column called [name]. *)
Fixpoint index_from (i : nat) (header : list string) (name : string)
  : option nat :=
  match header with
  | [] => None
  | n :: header' =>
      if decide (n = name) then Some i else index_from (S i) header' name
  end.

(** The fields of column [name] of a file, one per record. *)
Definition csv_column (t : csv_text) (name : string)
  : option (list (option string)) :=
  j ← index_from 0 (csv_header t) name;
  Some (map (field_at j) (csv_records t)).

(** The columns the sensor loader reads. *)
Definition required_columns : list string :=
  string_columns ++ ["timestamp"; "air_quality_index"].

(** The aggregation key of an aggregated row. *)
Definition reading_key (r : reading) : sensor_key :=
  (timestamp r, location r, sensor_id r).

(** The [air_quality_index] values, missing ones included, of the cleaned
    rows with key [k]. *)
Definition index_values (k : sensor_key) (rows : list sensor_row)
  : list (option Q) :=
  map sr_air_quality_index
      (filter (fun x => sensor_row_key x = Some k) rows).

(** [m] is the arithmetic mean of the non-empty list [xs]. *)
Definition is_mean (m : Q) (xs : list Q) : Prop :=
  xs ≠ [] ∧ (m * inject_Z (Z.of_nat (length xs)) == Qsum xs)%Q.

(** The draws of the synthetic generator, row by row: each row makes one
    call of [randint(0, 200)] and then one call of [randint(1, 5)]. *)
Section Draws.
Context {rng : Type} (randint : Z → Z → rng → Z * rng).

Definition draw_index (g : rng) : Z := (randint 0 200 g).1.
Definition draw_sensor (g : rng) : Z := (randint 1 5 (randint 0 200 g).2).1.
Definition next_row (g : rng) : rng := (randint 1 5 (randint 0 200 g).2).2.

(** The generator state when row [n] is made. *)
Fixpoint state_after (n : nat) (g : rng) : rng :=
  match n with
  | O => g
  | S n' => state_after n' (next_row g)
  end.

Definition sample_row (g : rng) (n : nat) (ld : string * Z) : reading :=
  Reading ld.2 ld.1 (sensor_label (draw_sensor (state_after n g)))
          (Some (inject_Z (draw_index (state_after n g)))).
End Draws.

(** The draws of the first [n] rows of a call, from the generator state
    [g]: for each row the index drawn and the sensor number drawn. *)
Definition draws {rng : Type} (randint : Z → Z → rng → Z * rng) (g : rng)
    (n : nat) : list (Z * Z) :=
  (fun i => (draw_index randint (state_after randint i g),
             draw_sensor randint (state_after randint i g))) <$> seq 0 n.

(** The rows the generator makes of given draws. *)
Definition rows_of_draws (now : Z) (ω : list (Z * Z)) : list reading :=
  zip_with (fun ld p =>
              Reading ld.2 ld.1 (sensor_label p.2) (Some (inject_Z p.1)))
           (list_prod sample_locations (date_range now 30)) ω.

(** What the two draws of one row can be, and the outcomes of the draws
    of [n] rows.  That [randint] is uniform and its calls independent
    means that the outcomes are equally likely: the probability of an
    event is the share of the outcomes in which it holds. *)
Definition row_draws : list (Z * Z) := list_prod (seqZ 0 200) (seqZ 1 4).

Fixpoint outcomes (n : nat) : list (list (Z * Z)) :=
  match n with
  | O => [[]]
  | S n' => flat_map (fun p => map (cons p) (outcomes n')) row_draws
  end.

(** The event that [P] holds of the draws of row [i]. *)
Definition at_row {A} (i : nat) (P : A → Prop) (ω : list A) : Prop :=
  from_option P False (ω !! i).

Global Instance at_row_dec {A} i (P : A → Prop) `{∀ x, Decision (P x)} ω :
  Decision (at_row i P ω).
Proof. unfold at_row. destruct (ω !! i); simpl; apply _. Defined.

(** The pool of sensor labels. *)
Definition sensor_pool : list string :=
  ["SENSOR_1"; "SENSOR_2"; "SENSOR_3"; "SENSOR_4"].

Definition place_and_day (r : reading) : string * Z :=
  (location r, timestamp r).

(** The location condition of the filter: it holds of every row when the
    selection is empty or absent. *)
Definition location_selected (selected : option (list string)) (r : reading)
  : Prop :=
  match selected with
  | Some (loc :: locs) => location r ∈ loc :: locs
  | _ => True
  end.

Global Instance location_selected_dec selected r :
  Decision (location_selected selected r).
Proof. destruct selected as [[|loc locs]|]; simpl; apply _. Defined.

(** The date condition of the filter, [None] standing for no date
    filtering. *)
Definition within_bounds (bounds : option (Z * Z)) (r : reading) : Prop :=
  match bounds with
  | Some (s, e) => (s ≤ timestamp r ≤ e)%Z
  | None => True
  end.

Global Instance within_bounds_dec bounds r : Decision (within_bounds bounds r).
Proof. destruct bounds as [[s e]|]; simpl; apply _. Defined.

Definition in_filter (selected : option (list string))
    (bounds : option (Z * Z)) (r : reading) : Prop :=
  location_selected selected r ∧ within_bounds bounds r.

Global Instance in_filter_dec selected bounds r :
  Decision (in_filter selected bounds r).
Proof. unfold in_filter. apply _. Defined.

(** The bounds the two date arguments of the callback stand for: none
    when either is absent (or empty), the parsed dates when both are
    present. *)
Definition date_bounds (parse_datetime : string → option Z)
    (start_date end_date : option string) (bounds : option (Z * Z)) : Prop :=
  match bounds with
  | None => truthy_str start_date = false ∨ truthy_str end_date = false
  | Some (s, e) =>
      truthy_str start_date = true ∧ truthy_str end_date = true ∧
      start_date ≫= parse_datetime = Some s ∧
      end_date ≫= parse_datetime = Some e
  end.

(** [m] is a greatest, resp. least, element of [xs]. *)
Definition is_max (m : Q) (xs : list Q) : Prop :=
  m ∈ xs ∧ ∀ x, x ∈ xs → (x <= m)%Q.

Definition is_min (m : Q) (xs : list Q) : Prop :=
  m ∈ xs ∧ ∀ x, x ∈ xs → (m <= x)%Q.

(** The statistics block of location [loc] over the filtered rows: the
    heading, the three formatted figures and the row count. *)
Definition stats_entry (loc : string) (rows : list reading) (h : html) : Prop :=
  let matching := filter (fun r => location r = loc) rows in
  let values := present (air_quality_index <$> matching) in
  ∃ avg mx mn : option Q,
    h = Div [ H3 ("Statistics for Location " +:+ loc);
              P ("Average AQI: " +:+ format_2f avg);
              P ("Maximum AQI: " +:+ format_2f mx);
              P ("Minimum AQI: " +:+ format_2f mn);
              P ("Number of readings: " +:+ pretty (length matching)) ] ∧
    match avg with Some m => is_mean m values | None => values = [] end ∧
    match mx with Some m => is_max m values | None => values = [] end ∧
    match mn with Some m => is_min m values | None => values = [] end.

(** The block shown for a location without rows. *)
Definition empty_stats_entry (loc : string) : html :=
  Div [ H3 ("Statistics for Location " +:+ loc);
        P "Average AQI: nan";
        P "Maximum AQI: nan";
        P "Minimum AQI: nan";
        P "Number of readings: 0" ].

(** In the store [σ], [l] is an object made since the store was [σ0],
    and nothing that was in [σ0] has changed. *)
Definition local_in (σ0 : store) (l : ref) (σ : store) : Prop :=
  σ0 ⊆ σ ∧ σ0 !! l = None ∧ is_Some (σ !! l).

(** The points a chart is drawn from. *)
Definition figure_points (fig : figure) : list (cell * cell) :=
  match fig with
  | BarChart _ points => points
  | ScatterChart _ points _ => points
  | _ => []
  end.

(** The charts of a page. *)
Fixpoint html_figures (h : html) : list figure :=
  match h with
  | Div children => flat_map html_figures children
  | Ul items => flat_map html_figures items
  | Graph fig => [fig]
  | _ => []
  end.

(** No point of the chart has a missing value. *)
Definition excludes_missing (fig : figure) : Prop :=
  ∀ p, p ∈ figure_points fig → p.2 ≠ NA.

Definition is_scatter (fig : figure) : Prop :=
  match fig with ScatterChart _ _ _ => True | _ => False end.

(** All the charts the research callback returns. *)
Definition research_figures (outputs : figure * figure * html) : list figure :=
  outputs.1.1 :: outputs.1.2 :: html_figures outputs.2.

(** The finding rows of category [k], and those of them with a detail. *)
Definition rows_of_category (k : cell) (rows : list (cell * cell))
  : list (cell * cell) :=
  filter (fun p => p.1 = k) rows.

Definition detailed_rows_of_category (k : cell) (rows : list (cell * cell))
  : list (cell * cell) :=
  filter (fun p => p.1 = k ∧ p.2 ≠ NA) rows.

(** The lexicographic order of the aggregation keys: by timestamp, then
    by location, then by sensor. *)
Definition sensor_key_le (a b : sensor_key) : Prop :=
  (a.1.1 < b.1.1)%Z ∨
  (a.1.1 = b.1.1 ∧
   ((a.1.2 ?= b.1.2)%string = Lt ∨ (a.1.2 = b.1.2 ∧ String.le a.2 b.2))).

Definition reading_le (r r' : reading) : Prop :=
  sensor_key_le (reading_key r) (reading_key r').

(** The first and the last character of a string. *)
Definition first_char (s : string) : option ascii :=
  match s with
  | String c _ => Some c
  | EmptyString => None
  end.

Fixpoint last_char (s : string) : option ascii :=
  match s with
  | EmptyString => None
  | String c EmptyString => Some c
  | String _ s' => last_char s'
  end.

(** The string of [n] single quotes. *)
Fixpoint quotes (n : nat) : string :=
  match n with
  | O => EmptyString
  | S n' => String quote (quotes n')
  end.

(** The string neither starts nor ends with a single quote. *)
Definition unquoted (s : string) : Prop :=
  first_char s ≠ Some quote ∧ last_char s ≠ Some quote.

(** The key of the daily averages, and the indices of the rows of a
    location on a day. *)
Definition place_and_date (r : reading) : string * Z :=
  (location r, date_of (timestamp r)).

Definition daily_values (k : string * Z) (rows : list reading)
  : list (option Q) :=
  air_quality_index <$> filter (fun r => place_and_date r = k) rows.

(** The two parameters of the overview chart. *)
Definition overview_parameters : list cell :=
  [Str "PM2.5 Levels"; Str "Health Implications"].

(** The page of key findings made of the points of its two charts. *)
Definition health_page (pm25 health : list (cell * cell)) : html :=
  Div [ H2 "Health Impact Analysis";
        Div [ H3 "PM2.5 Concentration Measurements";
              Graph (BarChart "PM2.5 Concentration Measurements" pm25) ];
        Div [ H3 "Health Risk Metrics";
              Graph (ScatterChart "Health Risk Indicators" health
                       (replicate (length health) 20)) ];
        key_findings_grid ].

(** The statistics block [h] ends with the line giving [n] readings. *)
Definition shows_count (n : nat) (h : html) : Prop :=
  ∃ children,
    h = Div children ∧
    last children = Some (P ("Number of readings: " +:+ pretty n)).

(** * Example inputs *)

Definition decimal_integer (s : string) : option Z :=
  Z.of_int <$> NilZero.int_of_string s.

(** Numbers are decimal integers; dates are written [T] and a number of
    nanoseconds. *)
Definition example_number (s : string) : option Q :=
  inject_Z <$> decimal_integer s.

Definition example_datetime (s : string) : option Z :=
  match s with
  | String "T" digits => decimal_integer digits
  | _ => None
  end.

Definition example_datetime_of_number (q : Q) : option Z := Some (Qfloor q).

(** A linear congruential generator standing for numpy's. *)
Definition example_randint (lo hi : Z) (g : Z) : Z * Z :=
  (lo + g mod (hi - lo), (g * 1103515245 + 12345) mod 2147483648).

Definition example_sensor_csv : csv_text :=
  CsvText
    ["sensor_id"; "sensor_type"; "location"; "value_type";
     "air_quality_index"; "timestamp"]
    [ [Some "'s1'"; Some "SDS011"; Some "A"; Some "'P1'"; Some "'10'";
       Some "T100"];
      [Some "s1"; Some "SDS011"; Some "A"; Some "P2"; Some "'30'";
       Some "T100"];
      [Some "s2"; Some "SDS011"; Some "A"; Some "P2"; Some "'x'";
       Some "T100"];
      [Some "s2"; Some "DHT22"; Some "A"; Some "humidity"; Some "'55'";
       Some "T100"];
      [Some "s0"; Some "SDS011"; Some "B"; Some "P0"; Some "'7'";
       Some "T50"] ].

Definition example_findings_csv : csv_text :=
  CsvText ["category"; "detail"]
    [ [Some "Health"; Some "Asthma prevalence"];
      [Some "Health"; None];
      [Some "Sources"; Some "Traffic"] ].

Definition example_correlations_csv : csv_text :=
  CsvText ["parameter"; "detail"; "value"]
    [ [Some "PM2.5 Levels"; Some "Annual mean"; Some "35"];
      [Some "PM2.5 Levels"; Some "WHO guideline"; Some "not measured"];
      [Some "Health Implications"; Some "Asthma odds ratio"; Some "2"];
      [Some "Health Implications"; Some "Wheeze"; None] ].

Definition example_files : file_system :=
  {[ "sensor_reading.csv" := example_sensor_csv;
     "research_findings.csv" := example_findings_csv;
     "health_correlations.csv" := example_correlations_csv ]}.

(** The files after [health_correlations.csv] has been rewritten. *)
Definition example_files_later : file_system :=
  <[ "health_correlations.csv" :=
       CsvText ["parameter"; "detail"; "value"]
         [ [Some "PM2.5 Levels"; Some "Annual mean"; Some "50"] ] ]>
  example_files.

(** The module-level [correlations_df] bound at line 415, from the
    example files. *)
Definition example_correlations_global : option raw_frame :=
  match load_research_findings example_number example_files
          "research_findings.csv" "health_correlations.csv" with
  | Ok (_, correlations_df, _) => Some correlations_df
  | Err _ => None
  end.

(** What [load_research_findings] returns on the example files. *)
Definition example_research : raw_frame * raw_frame * list (cell * nat) :=
  match load_research_findings example_number example_files
          "research_findings.csv" "health_correlations.csv" with
  | Ok outputs => outputs
  | Err _ => ([], [], [])
  end.

Definition example_findings_df : raw_frame := example_research.1.1.
Definition example_correlations_df : raw_frame := example_research.1.2.
Definition example_category_counts : list (cell * nat) := example_research.2.

(** The cleaned sensor rows of the example file. *)
Definition example_clean_rows : list sensor_row :=
  match clean_sensor_data example_number example_datetime
          example_datetime_of_number example_files "sensor_reading.csv" with
  | Ok rows => rows
  | Err _ => []
  end.

(** The aggregated dataset of the example file, as an object of the
    store. *)
Definition example_sensor_frame : frame :=
  Frame (aggregate example_clean_rows) None.

Definition example_store : store := {[ 0%nat := example_sensor_frame ]}.

(** A file of readings none of which is an air-quality measurement. *)
Definition example_humidity_files : file_system :=
  {[ "sensor_reading.csv" :=
       CsvText
         ["sensor_id"; "sensor_type"; "location"; "value_type";
          "air_quality_index"; "timestamp"]
         [ [Some "s2"; Some "DHT22"; Some "A"; Some "humidity"; Some "'55'";
            Some "T100"];
           [Some "s2"; Some "DHT22"; Some "A"; Some "temperature";
            Some "'21'"; Some "T100"] ] ]}.

(** A cleaned row whose timestamp is missing. *)
Definition example_incomplete_row : sensor_row :=
  SensorRow (Some "s9") (Some "SDS011") (Some "A") (Some "P1") None
    (Some (5 # 1)%Q).

(** The two charts made of the example files. *)
Definition example_charts : figure * figure :=
  match research_charts example_number example_files with
  | Ok charts => charts
  | Err _ => (EmptyBarChart, EmptyBarChart)
  end.

(** * Properties *)

(** ** Grouping *)

Section GroupByFacts.
Context {K V : Type} `{EqDecision K}.
Variable leb : K → K → bool.

Implicit Types (k : K) (v : V) (g : list (K * list V)) (rows : list (K * V)).

Lemma add_to_group_keys k v g :
  map fst (add_to_group k v g) =
  if decide (k ∈ map fst g) then map fst g else map fst g ++ [k].
Proof.
  induction g as [|[k' vs] g IH]; simpl; [done|].
  destruct (decide (k = k')) as [->|Hne]; simpl.
  - rewrite decide_True; [done|]. apply list_elem_of_here.
  - rewrite IH. destruct (decide (k ∈ map fst g)) as [Hin|Hnin].
    + rewrite decide_True; [done|]. by apply list_elem_of_further.
    + rewrite decide_False; [done|]. intros Hin.
      apply elem_of_cons in Hin as [?|?]; done.
Qed.

Lemma add_to_group_members_eq k v g :
  members k (add_to_group k v g) = members k g ++ [v].
Proof.
  induction g as [|[k' vs] g IH]; simpl.
  - by rewrite decide_True.
  - destruct (decide (k = k')) as [->|Hne]; simpl.
    + by rewrite decide_True.
    + by rewrite decide_False.
Qed.

Lemma add_to_group_members_ne k k' v g :
  k ≠ k' → members k' (add_to_group k v g) = members k' g.
Proof.
  intros Hne. induction g as [|[k0 vs] g IH]; simpl.
  - rewrite decide_False; [done|]. congruence.
  - destruct (decide (k = k0)) as [->|Hne0]; simpl.
    + rewrite !decide_False; [done| |]; congruence.
    + by rewrite IH.
Qed.

Lemma add_to_group_NoDup k v g :
  NoDup (map fst g) → NoDup (map fst (add_to_group k v g)).
Proof.
  intros Hnd. rewrite add_to_group_keys. case_decide; [done|].
  apply NoDup_app. split_and!; [done| |apply NoDup_singleton].
  intros x Hx Hx'. apply list_elem_of_singleton in Hx'. by subst.
Qed.

Lemma add_to_group_length k v g :
  (length (add_to_group k v g) ≤ S (length g))%nat.
Proof.
  induction g as [|[k' vs] g IH]; simpl; [lia|].
  case_decide; simpl; lia.
Qed.

Lemma group_rows_NoDup rows g :
  NoDup (map fst g) → NoDup (map fst (group_rows rows g)).
Proof.
  revert g. induction rows as [|[k v] rows IH]; intros g Hnd; simpl; [done|].
  by apply IH, add_to_group_NoDup.
Qed.

Lemma group_rows_length rows g :
  (length (group_rows rows g) ≤ length g + length rows)%nat.
Proof.
  revert g. induction rows as [|[k v] rows IH]; intros g; simpl; [lia|].
  specialize (IH (add_to_group k v g)).
  pose proof (add_to_group_length k v g). lia.
Qed.

Lemma group_rows_members k rows g :
  members k (group_rows rows g) = members k g ++ values_at k rows.
Proof.
  revert g. induction rows as [|[k' v] rows IH]; intros g; simpl.
  - by rewrite app_nil_r.
  - rewrite IH. unfold values_at. rewrite filter_cons. simpl.
    destruct (decide (k' = k)) as [->|Hne].
    + rewrite add_to_group_members_eq. simpl. by rewrite <- app_assoc.
    + by rewrite add_to_group_members_ne.
Qed.

Lemma group_rows_keys k rows g :
  k ∈ map fst (group_rows rows g) ↔ k ∈ map fst g ∨ k ∈ map fst rows.
Proof.
  revert g. induction rows as [|[k' v] rows IH]; intros g; simpl.
  - rewrite elem_of_nil. tauto.
  - rewrite IH, add_to_group_keys, elem_of_cons.
    case_decide as Hin.
    + split; [tauto|]. intros [Hk | [-> | Hk]]; tauto.
    + rewrite elem_of_app, list_elem_of_singleton.
      split; [intros [[Hk | ->] | Hk] | intros [Hk | [-> | Hk]]]; tauto.
Qed.

Lemma members_lookup k vs g :
  NoDup (map fst g) → (k, vs) ∈ g → members k g = vs.
Proof.
  induction g as [|[k' vs'] g IH]; simpl; intros Hnd Hin.
  - by apply elem_of_nil in Hin.
  - apply NoDup_cons in Hnd as [Hk' Hnd].
    apply elem_of_cons in Hin as [Heq|Hin].
    + injection Heq as <- <-. by rewrite decide_True.
    + rewrite decide_False; [by apply IH|].
      intros <-. apply Hk'. apply list_elem_of_fmap.
      by exists (k, vs).
Qed.

Lemma insert_group_perm (x : K * list V) g :
  insert_group leb x g ≡ₚ x :: g.
Proof.
  induction g as [|h g IH]; simpl; [done|].
  destruct (leb (fst x) (fst h)); [done|].
  rewrite IH. apply Permutation_swap.
Qed.

Lemma sort_groups_perm g : sort_groups leb g ≡ₚ g.
Proof.
  induction g as [|h g IH]; simpl; [done|].
  by rewrite insert_group_perm, IH.
Qed.

Lemma groupby_perm rows : groupby leb rows ≡ₚ group_rows rows [].
Proof. apply sort_groups_perm. Qed.

(** One group per distinct key. *)
Lemma groupby_NoDup rows : NoDup (map fst (groupby leb rows)).
Proof.
  rewrite (groupby_perm rows). apply group_rows_NoDup. simpl. constructor.
Qed.

Lemma groupby_length rows : (length (groupby leb rows) ≤ length rows)%nat.
Proof.
  rewrite (groupby_perm rows). apply (group_rows_length rows []).
Qed.

(** A group holds exactly the values of the rows with its key. *)
Lemma groupby_group k vs rows :
  (k, vs) ∈ groupby leb rows → vs = values_at k rows.
Proof.
  rewrite (groupby_perm rows). intros Hin.
  pose proof (group_rows_NoDup rows [] (NoDup_nil_2)) as Hnd.
  rewrite <- (members_lookup k vs _ Hnd Hin).
  by rewrite group_rows_members.
Qed.

(** Every key of a row has its group. *)
Lemma groupby_keys k rows :
  k ∈ map fst (groupby leb rows) ↔ k ∈ map fst rows.
Proof.
  rewrite (groupby_perm rows), group_rows_keys. simpl.
  rewrite elem_of_nil. tauto.
Qed.
End GroupByFacts.

(** ** The result monad *)

Lemma rbind_ok {A B} (m : result A) (k : A → result B) b :
  m ≫= k = Ok b → ∃ a, m = Ok a ∧ k a = Ok b.
Proof. destruct m as [a|e]; [by exists a|done]. Qed.

Lemma rbind_err {A B} (m : result A) (k : A → result B) e :
  m = Err e → m ≫= k = Err e.
Proof. by intros ->. Qed.

Lemma rmapM_length {A B} (f : A → result B) l l' :
  rmapM f l = Ok l' → length l' = length l.
Proof.
  revert l'. induction l as [|x l IH]; intros l' Hl; simpl in Hl.
  - by injection Hl as <-.
  - apply rbind_ok in Hl as (y & Hy & Hl).
    apply rbind_ok in Hl as (ys & Hys & Hl).
    injection Hl as <-. simpl. f_equal. by apply IH.
Qed.

Lemma rmapM_elem {A B} (f : A → result B) l l' x :
  rmapM f l = Ok l' → x ∈ l → ∃ y, f x = Ok y.
Proof.
  revert l'. induction l as [|x0 l IH]; intros l' Hl Hx; simpl in Hl.
  - by apply elem_of_nil in Hx.
  - apply rbind_ok in Hl as (y & Hy & Hl).
    apply rbind_ok in Hl as (ys & Hys & Hl).
    apply elem_of_cons in Hx as [->|Hx]; eauto.
Qed.

(** ** Frames read from CSV *)

Lemma get_column_elem df name c :
  get_column df name = Ok c → (name, c) ∈ df.
Proof.
  induction df as [|[n c'] df IH]; simpl; [done|].
  case_decide as Hn.
  - intros [= ->]. subst. apply list_elem_of_here.
  - intros Hc. apply list_elem_of_further. by apply IH.
Qed.

Lemma get_column_name df name c :
  get_column df name = Ok c → name ∈ map fst df.
Proof.
  intros Hc. apply list_elem_of_fmap. exists (name, c).
  split; [done|]. by apply get_column_elem.
Qed.

Lemma get_column_height n df name c :
  frame_height n df → get_column df name = Ok c → length (col_cells c) = n.
Proof.
  intros Hh Hc. apply get_column_elem in Hc.
  unfold frame_height in Hh. rewrite Forall_forall in Hh.
  by apply (Hh _ Hc).
Qed.

Lemma set_column_names df name c :
  name ∈ map fst df → map fst (set_column df name c) = map fst df.
Proof.
  induction df as [|[n c'] df IH]; simpl; intros Hin.
  - by apply elem_of_nil in Hin.
  - case_decide as Hn; simpl; [done|]. f_equal. apply IH.
    apply elem_of_cons in Hin as [?|?]; [congruence|done].
Qed.

Lemma set_column_height n df name c :
  frame_height n df → length (col_cells c) = n →
  frame_height n (set_column df name c).
Proof.
  intros Hh Hc. induction df as [|[n' c'] df IH]; simpl.
  - by repeat constructor.
  - apply Forall_cons in Hh as [Hh1 Hh2].
    case_decide; apply Forall_cons; split; simpl; auto.
    by apply IH.
Qed.

Lemma get_set_column_ne df name name' c :
  name ≠ name' →
  get_column (set_column df name c) name' = get_column df name'.
Proof.
  intros Hne. induction df as [|[n c'] df IH]; simpl.
  - by rewrite decide_False.
  - destruct (decide (n = name)) as [->|Hn]; simpl.
    + by rewrite !decide_False.
    + by rewrite IH.
Qed.

Lemma str_strip_length c c' :
  str_strip c = Ok c' → length (col_cells c') = length (col_cells c).
Proof.
  unfold str_strip, str_accessor. destruct (col_dtype c); simpl; [|done].
  intros [= <-]. simpl. by rewrite length_map.
Qed.

Lemma strip_columns_names cols df df' :
  strip_columns cols df = Ok df' → map fst df' = map fst df.
Proof.
  revert df. induction cols as [|col cols IH]; intros df Hs; simpl in Hs.
  - by injection Hs as <-.
  - apply rbind_ok in Hs as (c & Hc & Hs).
    apply rbind_ok in Hs as (c' & Hc' & Hs).
    rewrite (IH _ Hs).
    apply set_column_names. by eapply get_column_name.
Qed.

Lemma strip_columns_height n cols df df' :
  frame_height n df → strip_columns cols df = Ok df' → frame_height n df'.
Proof.
  revert df. induction cols as [|col cols IH]; intros df Hh Hs; simpl in Hs.
  - by injection Hs as <-.
  - apply rbind_ok in Hs as (c & Hc & Hs).
    apply rbind_ok in Hs as (c' & Hc' & Hs).
    apply (IH _ (set_column_height _ _ _ _ Hh
      ltac:(erewrite str_strip_length by done;
            by eapply get_column_height)) Hs).
Qed.

Lemma strip_columns_other cols df df' name :
  name ∉ cols → strip_columns cols df = Ok df' →
  get_column df' name = get_column df name.
Proof.
  revert df. induction cols as [|col cols IH]; intros df Hn Hs; simpl in Hs.
  - by injection Hs as <-.
  - apply rbind_ok in Hs as (c & Hc & Hs).
    apply rbind_ok in Hs as (c' & Hc' & Hs).
    apply not_elem_of_cons in Hn as [Hne Hn].
    rewrite (IH _ Hn Hs). apply get_set_column_ne. congruence.
Qed.

Lemma enumerate_from_snd {A} i (l : list A) :
  map snd (enumerate_from i l) = l.
Proof.
  revert i. induction l as [|x l IH]; intros i; simpl; [done|].
  by rewrite IH.
Qed.

(** ** Means *)

Lemma Qsum_cons x xs : Qsum (x :: xs) = (x + Qsum xs)%Q.
Proof. done. Qed.

Lemma mean_is_mean x xs : is_mean (mean (x :: xs)) (x :: xs).
Proof.
  split; [done|]. unfold mean. rewrite Qred_correct.
  set (n := inject_Z (Z.of_nat (length (x :: xs)))).
  assert (¬ (n == 0)%Q) as Hn.
  { unfold n, inject_Z, Qeq. simpl. lia. }
  field. exact Hn.
Qed.

(** [nanmean] is the arithmetic mean of the values that are present, and
    is missing exactly when none is. *)
Lemma nanmean_spec vs :
  match nanmean vs with
  | Some m => is_mean m (present vs)
  | None => present vs = []
  end.
Proof.
  unfold nanmean. destruct (present vs) as [|x xs]; [done|].
  apply mean_is_mean.
Qed.

(** ** Aggregation of the sensor rows *)

Lemma aggregate_keys rows :
  map reading_key (aggregate rows) =
  map fst (groupby sensor_key_leb (omap keyed_row rows)).
Proof.
  unfold aggregate. rewrite map_map. apply map_ext.
  by intros [[[t l] s] vs].
Qed.

Lemma values_at_keyed_rows k rows :
  values_at k (omap keyed_row rows) = index_values k rows.
Proof.
  unfold values_at, index_values.
  induction rows as [|x rows IH]; [done|].
  rewrite (filter_cons _ x rows). cbn [omap list_omap].
  unfold keyed_row at 1.
  destruct (sensor_row_key x) as [k'|] eqn:Hk; cbn [mbind option_bind].
  - rewrite filter_cons. cbn [fst].
    destruct (decide (k' = k)) as [->|Hne].
    + rewrite decide_True by done. cbn [map snd]. by rewrite IH.
    + rewrite decide_False by congruence. done.
  - rewrite decide_False by done. done.
Qed.

Lemma omap_length_le {A B} (f : A → option B) l :
  (length (omap f l) ≤ length l)%nat.
Proof.
  induction l as [|x l IH]; [done|]. cbn [omap list_omap].
  destruct (f x); simpl; lia.
Qed.

Lemma aggregate_length rows : (length (aggregate rows) ≤ length rows)%nat.
Proof.
  unfold aggregate. rewrite length_map.
  etrans; [apply groupby_length|apply omap_length_le].
Qed.

Lemma aggregate_NoDup rows : NoDup (map reading_key (aggregate rows)).
Proof. rewrite aggregate_keys. apply groupby_NoDup. Qed.

Lemma aggregate_value rows r :
  r ∈ aggregate rows →
  air_quality_index r = nanmean (index_values (reading_key r) rows).
Proof.
  unfold aggregate. intros Hr.
  apply list_elem_of_fmap in Hr as ([[[t l] s] vs] & -> & Hin). simpl.
  apply groupby_group in Hin. rewrite values_at_keyed_rows in Hin.
  by rewrite Hin.
Qed.

Lemma aggregate_covers rows x k :
  x ∈ rows → sensor_row_key x = Some k →
  k ∈ map reading_key (aggregate rows).
Proof.
  intros Hx Hk. rewrite aggregate_keys, groupby_keys.
  apply list_elem_of_fmap. exists (k, sr_air_quality_index x).
  split; [done|]. apply list_elem_of_omap. exists x. split; [done|].
  unfold keyed_row. by rewrite Hk.
Qed.


Section LoaderFacts.
Variable parse_number : string → option Q.
Variable parse_datetime : string → option Z.
Variable datetime_of_number : Q → option Z.

Local Abbreviation read_csv' := (read_csv parse_number).
Local Abbreviation sensor_rows' :=
  (sensor_rows parse_number parse_datetime datetime_of_number).
Local Abbreviation clean_sensor_data' :=
  (clean_sensor_data parse_number parse_datetime datetime_of_number).
Local Abbreviation sensor_pipeline' :=
  (sensor_pipeline parse_number parse_datetime datetime_of_number).

Lemma infer_column_length forced fields :
  length (col_cells (infer_column parse_number forced fields)) =
  length fields.
Proof.
  unfold infer_column.
  destruct (forced || bool_decide (fields = []) ||
            negb (all_numeric parse_number fields));
    simpl; by rewrite length_map.
Qed.

Lemma read_csv_file fs path strs df :
  read_csv' fs path strs = Ok df →
  ∃ t, fs !! path = Some t ∧ map fst df = csv_header t ∧
       frame_height (length (csv_records t)) df.
Proof.
  unfold read_csv. destruct (fs !! path) as [t|]; [|done].
  destruct (forallb _ _); [|done]. intros [= <-].
  exists t. split; [done|]. split.
  - rewrite <- (enumerate_from_snd 0 (csv_header t)) at 2.
    rewrite map_map. apply map_ext. by intros [j name].
  - unfold frame_height. apply Forall_forall. intros [n c] Hin.
    apply list_elem_of_fmap in Hin as ([j name] & [= -> ->] & _). simpl.
    by rewrite infer_column_length, length_map.
Qed.

Lemma read_csv_missing fs path strs :
  fs !! path = None → read_csv' fs path strs = Err FileNotFoundError.
Proof. unfold read_csv. by intros ->. Qed.

Lemma read_csv_get_column_from (strs : list string) t i name :
  get_column
    (map (fun '(j, name) =>
            (name, infer_column parse_number (bool_decide (name ∈ strs))
                     (map (field_at j) (csv_records t))))
         (enumerate_from i (csv_header t))) name =
  match index_from i (csv_header t) name with
  | Some j => Ok (infer_column parse_number (bool_decide (name ∈ strs))
                    (map (field_at j) (csv_records t)))
  | None => Err (KeyError name)
  end.
Proof.
  generalize (csv_header t) as hdr. intros hdr. revert i.
  induction hdr as [|n hdr IH]; intros i; simpl; [done|].
  destruct (decide (n = name)) as [->|Hne]; [done|]. apply IH.
Qed.

Lemma read_csv_get_column fs path strs df t name :
  read_csv' fs path strs = Ok df → fs !! path = Some t →
  get_column df name =
  match csv_column t name with
  | Some fields => Ok (infer_column parse_number (bool_decide (name ∈ strs))
                         fields)
  | None => Err (KeyError name)
  end.
Proof.
  intros Hdf Ht. unfold read_csv in Hdf. rewrite Ht in Hdf.
  destruct (forallb _ _); [|done]. injection Hdf as <-.
  rewrite (read_csv_get_column_from strs t 0 name).
  unfold csv_column. by destruct (index_from 0 (csv_header t) name).
Qed.

(** The cleaned frame has one row per record of the file: coercion
    drops nothing. *)
Lemma sensor_rows_length fs path rows :
  sensor_rows' fs path = Ok rows →
  ∃ t, fs !! path = Some t ∧ length rows = length (csv_records t).
Proof.
  unfold sensor_rows. intros Hall.
  apply rbind_ok in Hall as (df & Hdf & Hall).
  apply rbind_ok in Hall as (df' & Hdf' & Hall).
  apply rbind_ok in Hall as (ts_col & Hts_col & Hall).
  apply rbind_ok in Hall as (ts & Hts & Hall).
  apply rbind_ok in Hall as (aqi_col & Haqi_col & Hall).
  apply rbind_ok in Hall as (aqi_str & Haqi_str & Hall).
  apply rbind_ok in Hall as (sid & Hsid & Hall).
  apply rbind_ok in Hall as (sty & Hsty & Hall).
  apply rbind_ok in Hall as (loc & Hloc & Hall).
  apply rbind_ok in Hall as (vty & Hvty & Hall).
  injection Hall as <-.
  apply read_csv_file in Hdf as (t & Ht & _ & Hh).
  exists t. split; [done|].
  pose proof (strip_columns_height _ _ _ _ Hh Hdf') as Hh'.
  unfold zip_sensor_rows. rewrite length_map, !length_zip_with.
  rewrite (get_column_height _ _ _ _ Hh' Hsid).
  rewrite (get_column_height _ _ _ _ Hh' Hsty).
  rewrite (get_column_height _ _ _ _ Hh' Hloc).
  rewrite (get_column_height _ _ _ _ Hh' Hvty).
  unfold to_datetime in Hts. apply rmapM_length in Hts.
  rewrite Hts, (get_column_height _ _ _ _ Hh' Hts_col).
  unfold to_numeric. rewrite length_map, (str_strip_length _ _ Haqi_str).
  rewrite (get_column_height _ _ _ _ Hh' Haqi_col). lia.
Qed.

Lemma sensor_pipeline_rows fs path out :
  sensor_pipeline' fs path = Ok out →
  ∃ df df',
    read_csv' fs path ["sensor_id"; "location"] = Ok df ∧
    strip_columns string_columns df = Ok df' ∧
    (∀ name, name ∈ required_columns → is_err (get_column df' name) = false) ∧
    (∃ c, get_column df' "timestamp" = Ok c ∧
          is_err (to_datetime parse_datetime datetime_of_number c) = false) ∧
    (∃ c, get_column df' "air_quality_index" = Ok c ∧
          is_err (str_strip c) = false).
Proof.
  unfold sensor_pipeline, clean_sensor_data. intros Hout.
  apply rbind_ok in Hout as (rows & Hrows & _).
  apply rbind_ok in Hrows as (all & Hall & _).
  unfold sensor_rows in Hall.
  apply rbind_ok in Hall as (df & Hdf & Hall).
  apply rbind_ok in Hall as (df' & Hdf' & Hall).
  apply rbind_ok in Hall as (ts_col & Hts_col & Hall).
  apply rbind_ok in Hall as (ts & Hts & Hall).
  apply rbind_ok in Hall as (aqi_col & Haqi_col & Hall).
  apply rbind_ok in Hall as (aqi_str & Haqi_str & Hall).
  apply rbind_ok in Hall as (sid & Hsid & Hall).
  apply rbind_ok in Hall as (sty & Hsty & Hall).
  apply rbind_ok in Hall as (loc & Hloc & Hall).
  apply rbind_ok in Hall as (vty & Hvty & _).
  exists df, df'. split; [done|]. split; [done|]. split; [|split].
  - intros name Hname. unfold required_columns, string_columns in Hname.
    simpl in Hname.
    repeat (apply elem_of_cons in Hname as [->|Hname]);
      [by rewrite ?Hts_col, ?Haqi_col, ?Hsid, ?Hsty, ?Hloc, ?Hvty ..|].
    by apply elem_of_nil in Hname.
  - exists ts_col. split; [done|]. by rewrite Hts.
  - exists aqi_col. split; [done|]. by rewrite Haqi_str.
Qed.

(** A missing file makes the pipeline raise. *)
Lemma pipeline_missing_file fs path :
  fs !! path = None → is_err (sensor_pipeline' fs path) = true.
Proof.
  intros Hfs. unfold sensor_pipeline, clean_sensor_data, sensor_rows.
  by rewrite (read_csv_missing _ _ _ Hfs).
Qed.

(** A file that lacks one of the columns makes the pipeline raise. *)
Lemma pipeline_missing_column fs path t name :
  fs !! path = Some t → name ∈ required_columns → name ∉ csv_header t →
  is_err (sensor_pipeline' fs path) = true.
Proof.
  intros Hfs Hname Hhdr.
  destruct (sensor_pipeline' fs path) as [out|e] eqn:Hp; [|done].
  apply sensor_pipeline_rows in Hp as (df & df' & Hdf & Hdf' & Hcols & _).
  specialize (Hcols name Hname).
  destruct (get_column df' name) as [c|] eqn:Hc; [|done].
  apply get_column_name in Hc.
  rewrite (strip_columns_names _ _ _ Hdf') in Hc.
  apply read_csv_file in Hdf as (t' & Ht' & Hnames & _).
  rewrite Hnames in Hc. congruence.
Qed.

(** A timestamp that is neither a date nor a number makes the pipeline
    raise. *)
Lemma pipeline_bad_timestamp fs path t fields s :
  fs !! path = Some t → csv_column t "timestamp" = Some fields →
  Some s ∈ fields → parse_number s = None → parse_datetime s = None →
  is_err (sensor_pipeline' fs path) = true.
Proof.
  intros Hfs Hcol Hs Hnum Hdate.
  destruct (sensor_pipeline' fs path) as [out|e] eqn:Hp; [|done].
  apply sensor_pipeline_rows in Hp as (df & df' & Hdf & Hdf' & _ & Hts & _).
  destruct Hts as (c & Hc & Hdt).
  rewrite (strip_columns_other string_columns df df' "timestamp") in Hc;
    [|compute_done|done].
  rewrite (read_csv_get_column _ _ _ _ _ _ Hdf Hfs), Hcol in Hc.
  injection Hc as <-. unfold infer_column in Hdt.
  assert (all_numeric parse_number fields = false) as Hnn.
  { apply not_true_is_false. intros Hall. unfold all_numeric in Hall.
    rewrite forallb_forall in Hall.
    apply list_elem_of_In, Hall in Hs. rewrite Hnum in Hs.
    apply bool_decide_eq_true in Hs. by destruct Hs. }
  rewrite Hnn, orb_true_r in Hdt. unfold to_datetime in Hdt. simpl in Hdt.
  destruct (rmapM _ _) as [ts|] eqn:Hm; [|done].
  apply (rmapM_elem _ _ _ (Str s)) in Hm as [y Hy].
  - simpl in Hy. by rewrite Hdate in Hy.
  - apply list_elem_of_fmap. by exists (Some s).
Qed.

(** An index column written as plain numbers, without the quotes of the
    export format, is read with a numeric dtype, and the [.str] accessor
    of line 36 raises on it. *)
Lemma pipeline_unquoted_index fs path t fields :
  fs !! path = Some t → csv_column t "air_quality_index" = Some fields →
  fields ≠ [] → all_numeric parse_number fields = true →
  is_err (sensor_pipeline' fs path) = true.
Proof.
  intros Hfs Hcol Hne Hnum.
  destruct (sensor_pipeline' fs path) as [out|e] eqn:Hp; [|done].
  apply sensor_pipeline_rows in Hp as (df & df' & Hdf & Hdf' & _ & _ & Haqi).
  destruct Haqi as (c & Hc & Hstr).
  rewrite (strip_columns_other string_columns df df' "air_quality_index")
    in Hc; [|compute_done|done].
  rewrite (read_csv_get_column _ _ _ _ _ _ Hdf Hfs), Hcol in Hc.
  injection Hc as <-. unfold infer_column in Hstr.
  by rewrite Hnum, (bool_decide_eq_false_2 _ Hne) in Hstr.
Qed.

(** *** The synthetic fallback *)

Variable rng : Type.
Variable randint : Z → Z → rng → Z * rng.

Local Abbreviation load_and_process_sensor_data' :=
  (load_and_process_sensor_data parse_number parse_datetime
     datetime_of_number rng randint).
Local Abbreviation create_sample_data' := (create_sample_data rng randint).

Lemma load_on_error fs now g path :
  is_err (sensor_pipeline' fs path) = true →
  load_and_process_sensor_data' fs now g path =
  create_sample_data' now g.
Proof.
  unfold load_and_process_sensor_data.
  by destruct (sensor_pipeline' fs path).
Qed.



(** Coercion of the index drops no row: before the value-type
    restriction there is one row per record of the file. *)
Lemma clean_sensor_data_rows fs path rows :
  clean_sensor_data' fs path = Ok rows →
  ∃ t all,
    fs !! path = Some t ∧ length all = length (csv_records t) ∧
    rows = filter (fun r => is_measurement r) all.
Proof.
  unfold clean_sensor_data. intros Hrows.
  apply rbind_ok in Hrows as (all & Hall & Hrows). injection Hrows as <-.
  apply sensor_rows_length in Hall as (t & Ht & Hlen).
  by exists t, all.
Qed.

End LoaderFacts.

(** ** The synthetic generator *)

Lemma list_prod_NoDup {A B} (l : list A) (k : list B) :
  NoDup l → NoDup k → NoDup (list_prod l k).
Proof.
  intros Hl Hk. induction Hl as [|x l Hx Hl IH]; simpl; [constructor|].
  apply NoDup_app. split_and!; [| |done].
  - by apply (NoDup_fmap_2 (pair x)).
  - intros [a b] Hin Hin'.
    apply list_elem_of_fmap in Hin as (y & [= -> ->] & _).
    apply list_elem_of_In, in_prod_iff in Hin' as [Hin' _].
    by apply Hx, list_elem_of_In.
Qed.

Lemma date_range_lookup now n i :
  (i < n)%nat →
  date_range now n !! i = Some (now - Z.of_nat (n - 1 - i) * day_ns).
Proof.
  intros Hi. unfold date_range.
  change (map ?f ?l) with (f <$> l).
  by rewrite list_lookup_fmap, lookup_seq_lt.
Qed.

Lemma date_range_NoDup now n : NoDup (date_range now n).
Proof.
  unfold date_range. apply NoDup_fmap_2_strong; [|apply NoDup_seq].
  intros i j Hi Hj Heq.
  apply list_elem_of_In, in_seq in Hi. apply list_elem_of_In, in_seq in Hj.
  unfold day_ns in Heq. lia.
Qed.

Lemma sensor_label_pool k : 1 ≤ k < 5 → sensor_label k ∈ sensor_pool.
Proof.
  intros Hk.
  assert (k = 1 ∨ k = 2 ∨ k = 3 ∨ k = 4) as Hcases by lia.
  destruct Hcases as [-> | [-> | [-> | ->]]]; compute_done.
Qed.

(** *** Counting outcomes *)

Section Counting.
Context {A : Type}.
Implicit Types (T : list (list A)) (R : list A).

Lemma filter_cons_head (P : A → Prop) `{∀ x, Decision (P x)}
    (E : list A → Prop) `{∀ ω, Decision (E ω)} p T :
  (∀ q t, E (q :: t) ↔ P q) →
  length (filter E (map (cons p) T)) =
  if decide (P p) then length T else 0%nat.
Proof.
  intros HE. induction T as [|t T IH]; [by case_decide|].
  cbn [map]. rewrite filter_cons.
  destruct (decide (P p)) as [Hp|Hp].
  - rewrite decide_True by by apply HE. simpl. by rewrite IH.
  - rewrite decide_False by by rewrite HE. done.
Qed.

Lemma filter_cons_tail (Q : list A → Prop) `{∀ ω, Decision (Q ω)}
    (E : list A → Prop) `{∀ ω, Decision (E ω)} p T :
  (∀ q t, E (q :: t) ↔ Q t) →
  length (filter E (map (cons p) T)) = length (filter Q T).
Proof.
  intros HE. induction T as [|t T IH]; [done|].
  cbn [map]. rewrite !filter_cons.
  destruct (decide (Q t)) as [Ht|Ht].
  - rewrite decide_True by by apply HE. simpl. by rewrite IH.
  - rewrite decide_False by by rewrite HE. done.
Qed.

Lemma extend_length T R :
  length (flat_map (fun p => map (cons p) T) R) = (length R * length T)%nat.
Proof.
  induction R as [|p R IH]; [done|]. cbn [flat_map].
  rewrite length_app, length_map, IH. simpl. lia.
Qed.

Lemma extend_count_head (P : A → Prop) `{∀ x, Decision (P x)}
    (E : list A → Prop) `{∀ ω, Decision (E ω)} T R :
  (∀ q t, E (q :: t) ↔ P q) →
  length (filter E (flat_map (fun p => map (cons p) T) R)) =
  (length (filter P R) * length T)%nat.
Proof.
  intros HE. induction R as [|p R IH]; [done|]. cbn [flat_map].
  rewrite filter_app, length_app, IH, (filter_cons_head P E p T HE).
  rewrite filter_cons. destruct (decide (P p)); simpl; lia.
Qed.

Lemma extend_count_tail (Q : list A → Prop) `{∀ ω, Decision (Q ω)}
    (E : list A → Prop) `{∀ ω, Decision (E ω)} T R :
  (∀ q t, E (q :: t) ↔ Q t) →
  length (filter E (flat_map (fun p => map (cons p) T) R)) =
  (length R * length (filter Q T))%nat.
Proof.
  intros HE. induction R as [|p R IH]; [done|]. cbn [flat_map].
  rewrite filter_app, length_app, IH, (filter_cons_tail Q E p T HE).
  simpl. lia.
Qed.
End Counting.

Lemma outcomes_length n :
  length (outcomes (S n)) = (length row_draws * length (outcomes n))%nat.
Proof. cbn [outcomes]. apply extend_length. Qed.

(** The share of the outcomes in which [P] holds of the draws of row [i]
    is the share of [row_draws] of which [P] holds. *)
Lemma outcomes_count n i (P : Z * Z → Prop) `{∀ p, Decision (P p)} :
  (i < n)%nat →
  (length (filter (at_row i P) (outcomes n)) * length row_draws =
   length (filter P row_draws) * length (outcomes n))%nat.
Proof.
  revert i. induction n as [|n IH]; intros i Hi; [lia|].
  rewrite outcomes_length. cbn [outcomes]. destruct i as [|j].
  - rewrite (extend_count_head P (at_row 0 P)); [lia|done].
  - rewrite (extend_count_tail (at_row j P) (at_row (S j) P)); [|done].
    specialize (IH j ltac:(lia)). nia.
Qed.

Lemma row_draws_length : length row_draws = 800%nat.
Proof. by vm_compute. Qed.

Lemma index_draw_count :
  Forall (fun v => length (filter (fun p => p.1 = v) row_draws) = 4%nat)
         (seqZ 0 200).
Proof. apply (bool_decide_unpack _). by vm_compute. Qed.

Lemma sensor_draw_count :
  Forall (fun label =>
            length (filter (fun p => sensor_label p.2 = label) row_draws) =
            200%nat)
         sensor_pool.
Proof. apply (bool_decide_unpack _). by vm_compute. Qed.

Lemma rows_of_draws_lookup now ω i :
  (i < 90)%nat →
  ∃ ld, rows_of_draws now ω !! i =
        (fun p => Reading ld.2 ld.1 (sensor_label p.2)
                    (Some (inject_Z p.1))) <$> ω !! i.
Proof.
  intros Hi. unfold rows_of_draws.
  destruct (lookup_lt_is_Some_2
              (list_prod sample_locations (date_range now 30)) i)
    as [ld Hld].
  { rewrite length_prod. unfold date_range.
    rewrite length_map, length_seq. simpl. lia. }
  exists ld. rewrite lookup_zip_with, Hld. simpl. by destruct (ω !! i).
Qed.

(** Each index value has one chance in 200 and each sensor label one
    chance in 4, in every row. *)
Lemma index_uniform now i v :
  (i < 90)%nat → 0 ≤ v < 200 →
  (length (filter (fun ω => air_quality_index <$> rows_of_draws now ω !! i
                            = Some (Some (inject_Z v)))
             (outcomes 90)) * 200 =
   length (outcomes 90))%nat.
Proof.
  intros Hi Hv.
  assert (length (filter (fun p : Z * Z => p.1 = v) row_draws) = 4%nat)
    as Hcount.
  { pose proof index_draw_count as Hall. rewrite Forall_forall in Hall.
    apply Hall, elem_of_seqZ. lia. }
  pose proof (outcomes_count 90 i (fun p => p.1 = v) Hi) as Hshare.
  rewrite Hcount, row_draws_length in Hshare.
  rewrite (list_filter_iff _ (at_row i (fun p : Z * Z => p.1 = v))); [lia|].
  intros ω. destruct (rows_of_draws_lookup now ω i Hi) as [ld ->].
  unfold at_row. destruct (ω !! i) as [p|]; simpl; [|done]. split.
  - intros [= Heq]. done.
  - by intros ->.
Qed.

Lemma sensor_uniform now i label :
  (i < 90)%nat → label ∈ sensor_pool →
  (length (filter (fun ω => sensor_id <$> rows_of_draws now ω !! i
                            = Some label)
             (outcomes 90)) * 4 =
   length (outcomes 90))%nat.
Proof.
  intros Hi Hlabel.
  assert (length (filter (fun p : Z * Z => sensor_label p.2 = label)
                    row_draws) = 200%nat) as Hcount.
  { pose proof sensor_draw_count as Hall. rewrite Forall_forall in Hall.
    by apply Hall. }
  pose proof (outcomes_count 90 i (fun p => sensor_label p.2 = label) Hi)
    as Hshare.
  rewrite Hcount, row_draws_length in Hshare.
  rewrite (list_filter_iff _
             (at_row i (fun p : Z * Z => sensor_label p.2 = label))); [lia|].
  intros ω. destruct (rows_of_draws_lookup now ω i Hi) as [ld ->].
  unfold at_row. destruct (ω !! i) as [p|]; simpl; [|done]. split.
  - by intros [= Heq].
  - by intros ->.
Qed.

Section SampleFacts.
Context {rng : Type} (randint : Z → Z → rng → Z * rng).

Lemma state_after_add n m (g : rng) :
  state_after randint (n + m) g =
  state_after randint m (state_after randint n g).
Proof. revert g. induction n as [|n IH]; intros g; simpl; [done|apply IH]. Qed.

Lemma state_after_S n (g : rng) :
  state_after randint (S n) g = next_row randint (state_after randint n g).
Proof.
  replace (S n) with (n + 1)%nat by lia. by rewrite state_after_add.
Qed.

Lemma sample_dates_loop_rows loc dates g :
  sample_dates_loop rng randint loc dates g =
  (imap (sample_row randint g) (pair loc <$> dates),
   state_after randint (length dates) g).
Proof.
  revert g. induction dates as [|date dates IH]; intros g; [done|].
  cbn [sample_dates_loop].
  destruct (randint 0 200 g) as [aqi g1] eqn:H1.
  destruct (randint 1 5 g1) as [k g2] eqn:H2.
  rewrite IH.
  assert (next_row randint g = g2) as Hnext.
  { unfold next_row. rewrite H1. cbn [snd]. by rewrite H2. }
  rewrite fmap_cons, imap_cons. cbn [length state_after].
  rewrite Hnext. f_equal. f_equal.
  - unfold sample_row, draw_sensor, draw_index. cbn [state_after fst snd].
    rewrite H1. cbn [fst snd]. by rewrite H2.
  - apply imap_ext. intros i ld _. unfold sample_row, compose.
    simpl. by rewrite Hnext.
Qed.

Lemma sample_locations_loop_rows locs dates g :
  sample_locations_loop rng randint locs dates g =
  (imap (sample_row randint g) (list_prod locs dates),
   state_after randint (length locs * length dates) g).
Proof.
  revert g. induction locs as [|loc locs IH]; intros g; [done|].
  cbn [sample_locations_loop list_prod].
  rewrite sample_dates_loop_rows, IH. cbn [length Nat.mul].
  rewrite state_after_add, imap_app. f_equal. f_equal.
  apply imap_ext. intros i ld _. unfold sample_row.
  rewrite length_fmap, state_after_add. done.
Qed.

Lemma create_sample_data_rows now g :
  create_sample_data rng randint now g =
  (imap (sample_row randint g)
     (list_prod sample_locations (date_range now 30)),
   state_after randint 90 g).
Proof. unfold create_sample_data. by rewrite sample_locations_loop_rows. Qed.

Lemma imap_zip_with {B C D} (F : B → C → D) (d : nat → C) (l : list B) :
  imap (fun i x => F x (d i)) l = zip_with F l (d <$> seq 0 (length l)).
Proof.
  revert d. induction l as [|x l IH]; intros d; [done|].
  rewrite imap_cons. cbn [length seq fmap list_fmap zip_with]. f_equal.
  rewrite <- fmap_S_seq, <- list_fmap_compose. apply (IH (d ∘ S)).
Qed.

(** The rows of a call are made of its draws, one pair of draws per row. *)
Lemma create_sample_data_draws now g :
  (create_sample_data rng randint now g).1 =
  rows_of_draws now (draws randint g 90).
Proof.
  rewrite create_sample_data_rows. cbn [fst].
  unfold rows_of_draws, draws, sample_row.
  rewrite (imap_zip_with
             (fun ld p => Reading ld.2 ld.1 (sensor_label p.2)
                            (Some (inject_Z p.1)))
             (fun i => (draw_index randint (state_after randint i g),
                        draw_sensor randint (state_after randint i g)))).
  replace (length (list_prod sample_locations (date_range now 30)))
    with 90%nat; [done|].
  rewrite length_prod. unfold date_range.
  by rewrite length_map, length_seq.
Qed.

(** C4: the synthetic data has 90 rows, one for each pair of the three
    locations and the thirty consecutive days that end at the time of
    the call; the index of row [i] is the integer one call of
    [randint(0, 200)] returned, in [0, 200), and its sensor is the
    label of the integer one call of [randint(1, 5)] returned, one of
    the four labels of the pool, distinct integers having distinct
    labels; every call is made on the generator state the previous call
    left.  The rows are a function of the draws alone, and when the
    outcomes of the draws are equally likely, every index value has one
    chance in 200 and every label one chance in 4, in every row. *)
Theorem create_sample_data_shape now g :
  (∀ lo hi s, lo < hi → lo ≤ (randint lo hi s).1 < hi) →
  let rows := (create_sample_data rng randint now g).1 in
  length rows = 90%nat ∧
  place_and_day <$> rows = list_prod sample_locations (date_range now 30) ∧
  NoDup (place_and_day <$> rows) ∧
  length (date_range now 30) = 30%nat ∧
  (∀ i, (i < 30)%nat →
        date_range now 30 !! i = Some (now - Z.of_nat (29 - i) * day_ns)) ∧
  length sensor_pool = 4%nat ∧ NoDup sensor_pool ∧
  (∀ k k', sensor_label k = sensor_label k' → k = k') ∧
  (∀ i r, rows !! i = Some r →
     let a := draw_index randint (state_after randint i g) in
     let k := draw_sensor randint (state_after randint i g) in
     air_quality_index r = Some (inject_Z a) ∧ 0 ≤ a < 200 ∧
     sensor_id r = sensor_label k ∧ 1 ≤ k < 5 ∧
     sensor_id r ∈ sensor_pool) ∧
  rows = rows_of_draws now (draws randint g 90) ∧
  (∀ i v, (i < 90)%nat → 0 ≤ v < 200 →
     (length (filter (fun ω => air_quality_index <$> rows_of_draws now ω !! i
                               = Some (Some (inject_Z v)))
                (outcomes 90)) * 200 =
      length (outcomes 90))%nat) ∧
  (∀ i label, (i < 90)%nat → label ∈ sensor_pool →
     (length (filter (fun ω => sensor_id <$> rows_of_draws now ω !! i
                               = Some label)
                (outcomes 90)) * 4 =
      length (outcomes 90))%nat).
Proof.
  intros Hrange rows.
  pose proof (create_sample_data_draws now g) as Hdraws. fold rows in Hdraws.
  revert Hdraws. unfold rows. rewrite create_sample_data_rows.
  cbn [fst]. intros Hdraws.
  assert (place_and_day <$>
            imap (sample_row randint g)
              (list_prod sample_locations (date_range now 30)) =
          list_prod sample_locations (date_range now 30)) as Hpairs.
  { rewrite fmap_imap. rewrite <- (list_fmap_id (list_prod _ _)) at 2.
    rewrite <- imap_const. apply imap_ext. by intros i [l d] _. }
  split_and!.
  - rewrite length_imap, length_prod. unfold date_range.
    by rewrite length_map, length_seq.
  - exact Hpairs.
  - rewrite Hpairs. apply list_prod_NoDup; [|apply date_range_NoDup].
    unfold sample_locations. compute_done.
  - unfold date_range. by rewrite length_map, length_seq.
  - intros i Hi. by rewrite (date_range_lookup now 30 i Hi).
  - done.
  - unfold sensor_pool. compute_done.
  - intros k k' Hk. unfold sensor_label in Hk. by simplify_eq.
  - intros i r Hr. rewrite list_lookup_imap in Hr.
    destruct (list_prod _ _ !! i) as [[l d]|]; [|done].
    injection Hr as <-. cbn zeta. cbn [air_quality_index sensor_id sample_row].
    assert (1 ≤ draw_sensor randint (state_after randint i g) < 5) as Hk.
    { unfold draw_sensor. apply Hrange. lia. }
    split_and!; try done.
    + unfold draw_index. apply Hrange. lia.
    + unfold draw_index. apply Hrange. lia.
    + apply Hk.
    + apply Hk.
    + by apply sensor_label_pool.
  - exact Hdraws.
  - apply index_uniform.
  - apply sensor_uniform.
Qed.
End SampleFacts.

(** ** Computations on the store *)

Lemma M_bind_run {A B} (m : M A) (k : A → M B) σ :
  (m ≫= k) σ =
  match m σ with
  | (Ok a, σ') => k a σ'
  | (Err e, σ') => (Err e, σ')
  end.
Proof. done. Qed.

Lemma M_ret_run {A} (a : A) (σ : store) : (mret a : M A) σ = (Ok a, σ).
Proof. done. Qed.

Lemma fresh_lookup (σ : store) : σ !! fresh (dom σ) = None.
Proof. apply not_elem_of_dom, is_fresh. Qed.

Lemma get_frame_run σ l f : σ !! l = Some f → get_frame l σ = (Ok f, σ).
Proof. unfold get_frame. by intros ->. Qed.

Lemma df_copy_run σ l f :
  σ !! l = Some f →
  df_copy l σ = (Ok (fresh (dom σ)), <[fresh (dom σ) := f]> σ).
Proof.
  intros Hl. unfold df_copy. by rewrite M_bind_run, (get_frame_run _ _ _ Hl).
Qed.

Lemma df_select_run σ l f p :
  σ !! l = Some f →
  df_select l p σ =
  (Ok (fresh (dom σ)), <[fresh (dom σ) := select_frame p f]> σ).
Proof.
  intros Hl. unfold df_select.
  by rewrite M_bind_run, (get_frame_run _ _ _ Hl).
Qed.

Lemma filter_all {A} (P : A → Prop) `{∀ x, Decision (P x)} (l : list A) :
  (∀ x, P x) → filter P l = l.
Proof.
  intros HP. induction l as [|x l IH]; [done|].
  rewrite filter_cons, decide_True by done. by rewrite IH.
Qed.

Section FilterFacts.
Variable parse_datetime : string → option Z.

Lemma parse_bound_run σ d t :
  d ≫= parse_datetime = Some t →
  parse_bound parse_datetime d σ = (Ok t, σ).
Proof. unfold parse_bound. by intros ->. Qed.

Lemma filter_location_isin selected (rows : list reading) :
  truthy_list selected = true →
  filter (fun r => location_isin selected r) rows =
  filter (location_selected selected) rows.
Proof.
  intros Ht. apply list_filter_iff. intros r.
  unfold location_isin. rewrite bool_decide_spec.
  by destruct selected as [[|loc locs]|].
Qed.

Lemma filter_not_selected selected (rows : list reading) :
  truthy_list selected = false →
  filter (location_selected selected) rows = rows.
Proof.
  intros Ht. apply filter_all. intros r.
  by destruct selected as [[|loc locs]|].
Qed.

Lemma filter_between s e (rows : list reading) :
  filter (fun r => timestamp_between s e r) rows =
  filter (within_bounds (Some (s, e))) rows.
Proof.
  apply list_filter_iff. intros r. unfold timestamp_between. simpl.
  rewrite andb_True, !Is_true_true, !Z.leb_le. done.
Qed.

(** The location step of the filter, run on the fresh copy [l1]. *)
Lemma location_step_run σ σ1 l1 df selected :
  σ ⊆ σ1 → σ !! l1 = None → σ1 !! l1 = Some df →
  ∃ l2 σ2 f2,
    (if truthy_list selected
     then df_select l1 (location_isin selected)
     else mret l1) σ1 = (Ok l2, σ2) ∧
    σ ⊆ σ2 ∧ σ !! l2 = None ∧ σ2 !! l2 = Some f2 ∧
    f_rows f2 = filter (location_selected selected) (f_rows df).
Proof.
  intros Hσ1 Hl1 Hdf1. destruct (truthy_list selected) eqn:Hsel.
  - rewrite (df_select_run _ _ _ _ Hdf1).
    eexists _, _, _. split; [done|].
    assert (σ1 !! fresh (dom σ1) = None) as Hfr by apply fresh_lookup.
    split_and!.
    + etrans; [apply Hσ1|]. by apply insert_subseteq.
    + eapply lookup_weaken_None; [apply Hfr|done].
    + apply lookup_insert_eq.
    + simpl. by apply filter_location_isin.
  - exists l1, σ1, df. split; [done|]. split_and!; try done.
    by rewrite filter_not_selected.
Qed.

(** The frame the filter step leaves in the store. *)
Lemma filter_step_run σ sensor_data df selected start_date end_date bounds :
  σ !! sensor_data = Some df →
  date_bounds parse_datetime start_date end_date bounds →
  ∃ l σ' f,
    filter_step parse_datetime sensor_data selected start_date end_date σ =
      (Ok l, σ') ∧
    σ ⊆ σ' ∧ σ !! l = None ∧ σ' !! l = Some f ∧
    f_rows f = filter (in_filter selected bounds) (f_rows df).
Proof.
  intros Hsd Hb. unfold filter_step.
  rewrite M_bind_run, (df_copy_run _ _ _ Hsd).
  set (l1 := fresh (dom σ)). set (σ1 := <[l1 := df]> σ).
  assert (σ !! l1 = None) as Hl1 by apply fresh_lookup.
  assert (σ ⊆ σ1) as Hσ1 by by apply insert_subseteq.
  assert (σ1 !! l1 = Some df) as Hdf1 by apply lookup_insert_eq.
  rewrite M_bind_run.
  destruct (location_step_run σ σ1 l1 df selected Hσ1 Hl1 Hdf1)
    as (l2 & σ2 & f2 & -> & Hσ2 & Hl2 & Hf2 & Hrows2).
  destruct bounds as [[s e]|]; simpl in Hb.
  - destruct Hb as (-> & -> & Hs & He). simpl.
    rewrite M_bind_run, (parse_bound_run _ _ _ Hs).
    rewrite M_bind_run, (parse_bound_run _ _ _ He).
    rewrite (df_select_run _ _ _ _ Hf2).
    assert (σ2 !! fresh (dom σ2) = None) as Hfr by apply fresh_lookup.
    eexists _, _, _. split; [done|]. split_and!.
    + etrans; [apply Hσ2|]. by apply insert_subseteq.
    + eapply lookup_weaken_None; [apply Hfr|done].
    + apply lookup_insert_eq.
    + simpl. rewrite Hrows2, filter_between, list_filter_filter.
      apply list_filter_iff. intros r. unfold in_filter. simpl. tauto.
  - assert (truthy_str start_date && truthy_str end_date = false) as ->.
    { destruct Hb as [-> | ->]; [done|apply andb_false_r]. }
    exists l2, σ2, f2. split; [done|]. split_and!; try done.
    rewrite Hrows2. apply list_filter_iff. intros r.
    unfold in_filter. simpl. tauto.
Qed.

(** Whatever its arguments, the filter step changes no object of the
    store it starts from, and the frame it returns is a new one. *)
Lemma filter_step_local σ sensor_data selected start_date end_date :
  match filter_step parse_datetime sensor_data selected start_date
          end_date σ with
  | (Ok l, σ') => local_in σ l σ'
  | (Err _, σ') => σ ⊆ σ'
  end.
Proof.
  destruct (σ !! sensor_data) as [df|] eqn:Hsd.
  - destruct (truthy_str start_date && truthy_str end_date) eqn:Hdates.
    + destruct (start_date ≫= parse_datetime) as [s|] eqn:Hs;
        [destruct (end_date ≫= parse_datetime) as [e|] eqn:He|].
      * apply andb_true_iff in Hdates as [Hts Hte].
        destruct (filter_step_run σ sensor_data df selected start_date
                    end_date (Some (s, e)) Hsd)
          as (l & σ' & f & -> & Hσ' & Hl & Hf & _); [done|].
        by split_and!.
      * unfold filter_step.
        rewrite M_bind_run, (df_copy_run _ _ _ Hsd).
        set (l1 := fresh (dom σ)). set (σ1 := <[l1 := df]> σ).
        rewrite M_bind_run.
        destruct (location_step_run σ σ1 l1 df selected
                    (insert_subseteq _ _ _ (fresh_lookup σ))
                    (fresh_lookup σ) (lookup_insert_eq _ _ _))
          as (l2 & σ2 & f2 & -> & Hσ2 & _).
        rewrite Hdates, M_bind_run, (parse_bound_run _ _ _ Hs), M_bind_run.
        unfold parse_bound. by rewrite He.
      * unfold filter_step.
        rewrite M_bind_run, (df_copy_run _ _ _ Hsd).
        set (l1 := fresh (dom σ)). set (σ1 := <[l1 := df]> σ).
        rewrite M_bind_run.
        destruct (location_step_run σ σ1 l1 df selected
                    (insert_subseteq _ _ _ (fresh_lookup σ))
                    (fresh_lookup σ) (lookup_insert_eq _ _ _))
          as (l2 & σ2 & f2 & -> & Hσ2 & _).
        rewrite Hdates, M_bind_run. unfold parse_bound. by rewrite Hs.
    + apply andb_false_iff in Hdates.
      destruct (filter_step_run σ sensor_data df selected start_date
                  end_date None Hsd Hdates)
        as (l & σ' & f & -> & Hσ' & Hl & Hf & _).
      by split_and!.
  - unfold filter_step, df_copy.
    rewrite !M_bind_run. unfold get_frame. by rewrite Hsd.
Qed.

(** C3: the filter step returns exactly the rows of the base dataset
    whose location is selected (every row when the selection is empty
    or absent) and whose timestamp lies between the two bounds,
    inclusive (every row when a bound is absent); with an empty or
    absent selection the row count is that of the date-filtered
    dataset. *)
Theorem filter_step_rows σ sensor_data df selected start_date end_date bounds :
  σ !! sensor_data = Some df →
  date_bounds parse_datetime start_date end_date bounds →
  ∃ l σ' f,
    filter_step parse_datetime sensor_data selected start_date end_date σ =
      (Ok l, σ') ∧
    σ' !! l = Some f ∧
    f_rows f = filter (in_filter selected bounds) (f_rows df) ∧
    (∀ r, r ∈ f_rows f ↔
          r ∈ f_rows df ∧ location_selected selected r ∧
          within_bounds bounds r) ∧
    (truthy_list selected = false →
     f_rows f = filter (within_bounds bounds) (f_rows df) ∧
     length (f_rows f) = length (filter (within_bounds bounds) (f_rows df))).
Proof.
  intros Hsd Hb.
  destruct (filter_step_run σ sensor_data df selected start_date end_date
              bounds Hsd Hb) as (l & σ' & f & Hrun & _ & _ & Hf & Hrows).
  exists l, σ', f. split_and!; try done.
  - intros r. rewrite Hrows, list_elem_of_filter. unfold in_filter. tauto.
  - intros Hsel.
    assert (f_rows f = filter (within_bounds bounds) (f_rows df)) as Heq.
    { rewrite Hrows. apply list_filter_iff. intros r. unfold in_filter.
      destruct selected as [[|loc locs]|]; simpl; try done; tauto. }
    by rewrite Heq.
Qed.
End FilterFacts.

(** ** Statistics *)

Lemma Qmax_cases a b :
  (Qmax a b = a ∨ Qmax a b = b) ∧ (a <= Qmax a b)%Q ∧ (b <= Qmax a b)%Q.
Proof.
  unfold Qmax. destruct (Qle_bool a b) eqn:Hab.
  - apply Qle_bool_iff in Hab. split_and!; [by right|done|apply Qle_refl].
  - split_and!; [by left|apply Qle_refl|].
    destruct (Qlt_le_dec b a) as [Hlt|Hle]; [by apply Qlt_le_weak|].
    apply Qle_bool_iff in Hle. congruence.
Qed.

Lemma Qmin_cases a b :
  (Qmin a b = a ∨ Qmin a b = b) ∧ (Qmin a b <= a)%Q ∧ (Qmin a b <= b)%Q.
Proof.
  unfold Qmin. destruct (Qle_bool a b) eqn:Hab.
  - apply Qle_bool_iff in Hab. split_and!; [by left|apply Qle_refl|done].
  - split_and!; [by right| |apply Qle_refl].
    destruct (Qlt_le_dec b a) as [Hlt|Hle]; [by apply Qlt_le_weak|].
    apply Qle_bool_iff in Hle. congruence.
Qed.

Lemma foldl_Qmax xs a :
  (foldl Qmax a xs = a ∨ foldl Qmax a xs ∈ xs) ∧
  (a <= foldl Qmax a xs)%Q ∧ ∀ x, x ∈ xs → (x <= foldl Qmax a xs)%Q.
Proof.
  revert a. induction xs as [|y xs IH]; intros a; simpl.
  - split_and!; [by left|apply Qle_refl|]. intros x Hx.
    by apply elem_of_nil in Hx.
  - destruct (IH (Qmax a y)) as (Hin & Hle & Hall).
    destruct (Qmax_cases a y) as (Hcase & Ha & Hy). split_and!.
    + destruct Hin as [->|Hin]; [|right; by apply list_elem_of_further].
      destruct Hcase as [->| ->]; [by left|right; apply list_elem_of_here].
    + by eapply Qle_trans.
    + intros x Hx. apply elem_of_cons in Hx as [->|Hx]; [|by apply Hall].
      by eapply Qle_trans.
Qed.

Lemma foldl_Qmin xs a :
  (foldl Qmin a xs = a ∨ foldl Qmin a xs ∈ xs) ∧
  (foldl Qmin a xs <= a)%Q ∧ ∀ x, x ∈ xs → (foldl Qmin a xs <= x)%Q.
Proof.
  revert a. induction xs as [|y xs IH]; intros a; simpl.
  - split_and!; [by left|apply Qle_refl|]. intros x Hx.
    by apply elem_of_nil in Hx.
  - destruct (IH (Qmin a y)) as (Hin & Hle & Hall).
    destruct (Qmin_cases a y) as (Hcase & Ha & Hy). split_and!.
    + destruct Hin as [->|Hin]; [|right; by apply list_elem_of_further].
      destruct Hcase as [->| ->]; [by left|right; apply list_elem_of_here].
    + by eapply Qle_trans.
    + intros x Hx. apply elem_of_cons in Hx as [->|Hx]; [|by apply Hall].
      by eapply Qle_trans.
Qed.

Lemma nanmax_spec vs :
  match nanmax vs with
  | Some m => is_max m (present vs)
  | None => present vs = []
  end.
Proof.
  unfold nanmax. destruct (present vs) as [|x xs]; [done|].
  destruct (foldl_Qmax xs x) as (Hin & Hle & Hall). split.
  - destruct Hin as [->|Hin];
      [apply list_elem_of_here|by apply list_elem_of_further].
  - intros y Hy. apply elem_of_cons in Hy as [->|Hy]; auto.
Qed.

Lemma nanmin_spec vs :
  match nanmin vs with
  | Some m => is_min m (present vs)
  | None => present vs = []
  end.
Proof.
  unfold nanmin. destruct (present vs) as [|x xs]; [done|].
  destruct (foldl_Qmin xs x) as (Hin & Hle & Hall). split.
  - destruct Hin as [->|Hin];
      [apply list_elem_of_here|by apply list_elem_of_further].
  - intros y Hy. apply elem_of_cons in Hy as [->|Hy]; auto.
Qed.

(** Rounding is to a nearest integer. *)
Lemma round_half_even_near q :
  (Qabs (q - inject_Z (round_half_even q)) <= 1 # 2)%Q.
Proof.
  unfold round_half_even.
  pose proof (Qfloor_le q) as Hlo. pose proof (Qlt_floor q) as Hhi.
  rewrite inject_Z_plus in Hhi. change (inject_Z 1) with 1%Q in Hhi.
  apply Qabs_Qle_condition.
  destruct (q - inject_Z (Qfloor q) ?= 1 # 2)%Q eqn:Hc.
  - apply Qeq_alt in Hc. destruct (Z.even (Qfloor q));
      rewrite ?inject_Z_plus; change (inject_Z 1) with 1%Q;
      set (f := inject_Z (Qfloor q)) in *; lra.
  - apply Qlt_alt in Hc. set (f := inject_Z (Qfloor q)) in *. lra.
  - apply Qgt_alt in Hc. rewrite inject_Z_plus.
    change (inject_Z 1) with 1%Q. set (f := inject_Z (Qfloor q)) in *. lra.
Qed.

(** [format_2f] prints the nearest number of hundredths, with two digits
    after the point, and [nan] for a missing value. *)
Lemma format_2f_spec v :
  match v with
  | None => format_2f v = "nan"
  | Some q =>
      ∃ n : Z,
        (Qabs (q * 100 - inject_Z n) <= 1 # 2)%Q ∧
        format_2f v =
          (if bool_decide (Qnum q < 0) then "-" else "") +:+
          pretty (Z.abs n / 100) +:+ "." +:+
          pretty (Z.abs n mod 100 / 10) +:+ pretty (Z.abs n mod 100 mod 10)
  end.
Proof.
  destruct v as [q|]; [|done].
  exists (round_half_even (q * 100)). split; [apply round_half_even_near|].
  done.
Qed.

Lemma location_statistics_entry loc (rows : list reading) :
  stats_entry loc rows
    (location_statistics loc (filter (fun r => location_is loc r) rows)).
Proof.
  unfold stats_entry, location_statistics.
  assert (filter (fun r => location_is loc r) rows =
          filter (fun r => location r = loc) rows) as ->.
  { apply list_filter_iff. intros r. unfold location_is.
    by rewrite bool_decide_spec. }
  set (matching := filter _ rows).
  exists (nanmean (map air_quality_index matching)),
         (nanmax (map air_quality_index matching)),
         (nanmin (map air_quality_index matching)).
  split; [done|]. split_and!.
  - apply nanmean_spec.
  - apply nanmax_spec.
  - apply nanmin_spec.
Qed.

Lemma location_statistics_empty loc :
  location_statistics loc [] = empty_stats_entry loc.
Proof. done. Qed.

Lemma Forall2_map_diag {A B} (R : A → B → Prop) (g : A → B) (l : list A) :
  (∀ x, R x (g x)) → Forall2 R l (map g l).
Proof. intros HR. induction l; simpl; constructor; auto. Qed.

(** ** The filter callback *)

Section CallbackFacts.
Variable parse_datetime : string → option Z.

(** The statistics loop makes one block per selected location, from the
    rows of the filtered frame at that location, and only adds objects
    to the store. *)
Lemma statistics_run σ filtered_df f locs :
  σ !! filtered_df = Some f →
  ∃ σ',
    statistics filtered_df (Some locs) σ =
      (Ok (map (fun loc =>
                  location_statistics loc
                    (filter (fun r => location_is loc r) (f_rows f))) locs),
       σ') ∧
    σ ⊆ σ'.
Proof.
  unfold statistics. revert σ.
  induction locs as [|loc locs IH]; intros σ Hf.
  - by exists σ.
  - cbn [forM map].
    rewrite M_bind_run, M_bind_run, (df_select_run _ _ _ _ Hf).
    rewrite M_bind_run, (get_frame_run _ _ _ (lookup_insert_eq _ _ _)).
    rewrite M_ret_run.
    set (σ1 := <[fresh (dom σ) := select_frame (location_is loc) f]> σ).
    assert (σ ⊆ σ1) as Hσ1 by apply insert_subseteq, fresh_lookup.
    destruct (IH σ1) as (σ' & Hrun & Hσ').
    { eapply lookup_weaken; [apply Hf|done]. }
    exists σ'. rewrite M_bind_run, Hrun.
    split; [done|]. by etrans.
Qed.


Lemma statistics_extends σ filtered_df selected :
  is_Some (σ !! filtered_df) →
  σ ⊆ (statistics filtered_df selected σ).2.
Proof.
  intros [f Hf]. destruct selected as [locs|]; [|done].
  destruct (statistics_run σ filtered_df f locs Hf) as (σ' & -> & Hσ').
  done.
Qed.

Lemma daily_average_store σ l :
  (daily_average l σ).2 = σ.
Proof.
  unfold daily_average, get_frame. rewrite M_bind_run.
  destruct (σ !! l) as [f|]; [|done]. by destruct (f_date f).
Qed.

(** C9: a call of [update_figures] leaves every object of the store it
    starts from as it was, the base dataset [sensor_data] among them,
    whatever the selection and whether or not the call raises: the
    filtered rows, the [date] column and the per-location frames are
    objects made during the call. *)
Theorem update_figures_preserves_sensor_data σ sensor_data selected
    start_date end_date :
  let σ' := (update_figures parse_datetime sensor_data selected start_date
               end_date σ).2 in
  σ ⊆ σ' ∧ σ' !! sensor_data = σ !! sensor_data.
Proof.
  intros σ'.
  assert (σ ⊆ σ') as Hsub.
  { unfold σ', update_figures. rewrite M_bind_run.
    pose proof (filter_step_local parse_datetime σ sensor_data selected
                  start_date end_date) as Hstep.
    destruct (filter_step _ _ _ _ _ σ) as [[l|e] σ1]; [|done].
    destruct Hstep as (Hσ1 & Hl & [f Hf]).
    rewrite M_bind_run, (get_frame_run _ _ _ Hf), M_bind_run.
    unfold df_set_date.
    rewrite M_bind_run, (get_frame_run _ _ _ Hf). unfold set_frame.
    set (σ2 := <[l := _]> σ1).
    assert (σ ⊆ σ2) as Hσ2 by by apply insert_subseteq_r.
    rewrite M_bind_run.
    pose proof (daily_average_store σ2 l) as Hda.
    destruct (daily_average l σ2) as [[avg|e] σ3]; simpl in Hda; subst σ3;
      [|done].
    rewrite M_bind_run.
    pose proof (statistics_extends σ2 l selected
                  (mk_is_Some _ _ (lookup_insert_eq _ _ _))) as Hst.
    destruct (statistics l selected σ2) as [[stats|e] σ4]; simpl in Hst;
      simpl; by etrans. }
  split; [done|].
  destruct (σ !! sensor_data) as [df|] eqn:Hsd.
  - eapply lookup_weaken; [apply Hsd|done].
  - unfold σ', update_figures, filter_step, df_copy.
    rewrite !M_bind_run. unfold get_frame. by rewrite Hsd.
Qed.
End CallbackFacts.

(** ** Masks *)

Lemma mask_rows_nil_l {A} (l : list A) : mask_rows [] l = [].
Proof. done. Qed.

Lemma mask_rows_nil_r {A} (m : list bool) : mask_rows m ([] : list A) = [].
Proof. by destruct m. Qed.

Lemma mask_rows_cons {A} b m (x : A) l :
  mask_rows (b :: m) (x :: l) =
  if b then x :: mask_rows m l else mask_rows m l.
Proof.
  unfold mask_rows. cbn [zip zip_with]. rewrite filter_cons.
  by destruct b.
Qed.

Lemma elem_of_mask_rows {A} m (l : list A) x :
  x ∈ mask_rows m l ↔ ∃ i, m !! i = Some true ∧ l !! i = Some x.
Proof.
  revert l. induction m as [|b m IH]; intros l.
  - rewrite mask_rows_nil_l, elem_of_nil. split; [done|].
    by intros (i & Hi & _).
  - destruct l as [|y l].
    + rewrite mask_rows_nil_r, elem_of_nil. split; [done|].
      by intros (i & _ & Hi).
    + rewrite mask_rows_cons. split.
      * destruct b.
        -- intros Hx. apply elem_of_cons in Hx as [->|Hx]; [by exists 0%nat|].
           apply IH in Hx as (i & Hm & Hl). by exists (S i).
        -- intros Hx. apply IH in Hx as (i & Hm & Hl). by exists (S i).
      * intros ([|i] & Hm & Hl); simpl in Hm, Hl.
        -- injection Hm as ->. injection Hl as ->. apply list_elem_of_here.
        -- assert (x ∈ mask_rows m l) as Hx by (apply IH; by exists i).
           destruct b; [by apply list_elem_of_further|done].
Qed.

Lemma mask_rows_zip {A B} m (a : list A) (b : list B) :
  mask_rows m (zip a b) = zip (mask_rows m a) (mask_rows m b).
Proof.
  revert a b. induction m as [|c m IH]; intros a b; [done|].
  destruct a as [|x a]; [by rewrite !mask_rows_nil_r|].
  destruct b as [|y b].
  { rewrite !mask_rows_nil_r. cbn [zip zip_with]. rewrite mask_rows_nil_r.
    by destruct (mask_rows _ _). }
  cbn [zip zip_with]. rewrite !mask_rows_cons. destruct c; simpl;
    by rewrite <- IH.
Qed.

Lemma mask_notna_present vals y :
  y ∈ mask_rows (map notna vals) vals → y ≠ NA.
Proof.
  intros Hy. apply elem_of_mask_rows in Hy as (i & Hm & Hl).
  change (map notna vals) with (notna <$> vals) in Hm.
  rewrite list_lookup_fmap, Hl in Hm. simpl in Hm. by intros ->.
Qed.

Lemma mask_and_notna_present (m : list bool) vals y :
  y ∈ mask_rows (zip_with andb m (map notna vals)) vals → y ≠ NA.
Proof.
  intros Hy. apply elem_of_mask_rows in Hy as (i & Hm & Hl).
  apply lookup_zip_with_Some in Hm as (b1 & b2 & Hb & _ & Hn).
  change (map notna vals) with (notna <$> vals) in Hn.
  rewrite list_lookup_fmap, Hl in Hn. simpl in Hn. injection Hn as <-.
  intros ->. by rewrite andb_false_r in Hb.
Qed.

Lemma get_column_df_mask df m name :
  get_column (df_mask df m) name =
  match get_column df name with
  | Ok c => Ok (Column (col_dtype c) (mask_rows m (col_cells c)))
  | Err e => Err e
  end.
Proof.
  induction df as [|[n c] df IH]; simpl; [done|].
  by case_decide.
Qed.

Lemma chart_points_ok df x y points :
  chart_points df x y = Ok points →
  ∃ cx cy, get_column df x = Ok cx ∧ get_column df y = Ok cy ∧
           points = zip (col_cells cx) (col_cells cy).
Proof.
  unfold chart_points.
  destruct (get_column df x) as [cx|]; [|done].
  destruct (get_column df y) as [cy|]; [|done].
  intros [= <-]. by exists cx, cy.
Qed.

(** The points of a chart made from [df[mask]] are the masked rows. *)
Lemma chart_points_df_mask df m x y points :
  chart_points (df_mask df m) x y = Ok points →
  ∃ cx cy, get_column df x = Ok cx ∧ get_column df y = Ok cy ∧
           points = mask_rows m (zip (col_cells cx) (col_cells cy)).
Proof.
  intros Hp. apply chart_points_ok in Hp as (cx' & cy' & Hx & Hy & ->).
  rewrite get_column_df_mask in Hx, Hy.
  destruct (get_column df x) as [cx|]; [|done].
  destruct (get_column df y) as [cy|]; [|done].
  injection Hx as <-. injection Hy as <-. simpl.
  exists cx, cy. by rewrite mask_rows_zip.
Qed.

Lemma zip_snd_elem {A B} (a : list A) (b : list B) p :
  p ∈ zip a b → p.2 ∈ b.
Proof.
  intros Hp. apply list_elem_of_lookup in Hp as [i Hi].
  apply lookup_zip_with_Some in Hi as (x & y & -> & _ & Hy).
  apply list_elem_of_lookup. by exists i.
Qed.

Lemma html_figures_grid : html_figures key_findings_grid = [].
Proof. done. Qed.

(** ** Research data *)

Lemma filter_map_length {A B} (f : A → B) (P : B → Prop)
    `{∀ y, Decision (P y)} (l : list A) :
  length (filter P (map f l)) = length (filter (fun x => P (f x)) l).
Proof.
  induction l as [|x l IH]; [done|]. cbn [map].
  rewrite !filter_cons. destruct (decide (P (f x))); simpl; by rewrite IH.
Qed.

Lemma count_by_category_keys category detail :
  map fst (count_by_category category detail) =
  map fst (groupby cell_leb
             (filter (fun p => notna p.1 = true) (zip category detail))).
Proof.
  unfold count_by_category. rewrite map_map. apply map_ext. by intros [k vs].
Qed.

(** The category counts: one entry per category that occurs, and the
    count of a category is the number of its rows that have a detail. *)
Lemma count_by_category_spec category detail :
  let rows := zip category detail in
  let cats := count_by_category category detail in
  NoDup (map fst cats) ∧
  (∀ k, k ∈ map fst cats ↔ k ≠ NA ∧ k ∈ map fst rows) ∧
  (∀ k n, (k, n) ∈ cats → n = length (detailed_rows_of_category k rows)).
Proof.
  intros rows cats. unfold cats. split_and!.
  - rewrite count_by_category_keys. apply groupby_NoDup.
  - intros k. rewrite count_by_category_keys, groupby_keys.
    change (map fst ?l) with (fst <$> l). rewrite !list_elem_of_fmap. split.
    + intros ([k' d] & -> & Hin). apply list_elem_of_filter in Hin as [Hk Hin].
      simpl in *. split; [by intros ->|]. by exists (k', d).
    + intros (Hk & [k' d] & -> & Hin). exists (k', d). split; [done|].
      apply list_elem_of_filter. split; [|done]. simpl in *. by destruct k'.
  - intros k n Hin. unfold count_by_category in Hin.
    apply list_elem_of_fmap in Hin as ([k' vs] & [= -> ->] & Hin).
    assert (notna k' = true) as Hk'.
    { assert (k' ∈ map fst (groupby cell_leb
                (filter (fun p => notna p.1 = true) rows))) as Hkey.
      { apply list_elem_of_fmap. by exists (k', vs). }
      apply groupby_keys, list_elem_of_fmap in Hkey as ([k d] & -> & Hkd).
      by apply list_elem_of_filter in Hkd as [Hk _]. }
    apply groupby_group in Hin. subst vs.
    unfold count_notna, values_at, detailed_rows_of_category.
    rewrite filter_map_length, !list_filter_filter. f_equal.
    apply list_filter_iff. intros [k d]. simpl. split.
    + intros [[Hd ->] Hk]. split; [done|]. by intros ->.
    + intros [-> Hd]. split_and!; [by destruct d|done|done].
Qed.

Section ResearchFacts.
Variable parse_number : string → option Q.

Local Abbreviation read_csv' := (read_csv parse_number).
Local Abbreviation load_research_findings' :=
  (load_research_findings parse_number).
Local Abbreviation research_charts' := (research_charts parse_number).
Local Abbreviation research_findings_body' :=
  (research_findings_body parse_number).
Local Abbreviation update_research_findings' :=
  (update_research_findings parse_number).

Lemma load_research_findings_ok fs ff cf f c cats :
  load_research_findings' fs ff cf = Ok (f, c, cats) →
  ∃ c0 category detail value,
    read_csv' fs ff [] = Ok f ∧ read_csv' fs cf [] = Ok c0 ∧
    get_column f "category" = Ok category ∧
    get_column f "detail" = Ok detail ∧
    get_column c0 "value" = Ok value ∧
    c = set_column c0 "value"
          (numeric_column (to_numeric parse_number value)) ∧
    cats = count_by_category (col_cells category) (col_cells detail).
Proof.
  unfold load_research_findings. intros Hl.
  apply rbind_ok in Hl as (f' & Hf & Hl).
  apply rbind_ok in Hl as (c0 & Hc0 & Hl).
  apply rbind_ok in Hl as (category & Hcat & Hl).
  apply rbind_ok in Hl as (detail & Hdet & Hl).
  apply rbind_ok in Hl as (value & Hval & Hl).
  injection Hl as -> <- <-. by exists c0, category, detail, value.
Qed.

(** The dataset keeps one row per record of the file, whatever the
    values. *)
Lemma load_research_findings_height fs ff cf f c cats t :
  load_research_findings' fs ff cf = Ok (f, c, cats) →
  fs !! cf = Some t →
  frame_height (length (csv_records t)) c.
Proof.
  intros Hl Ht.
  apply load_research_findings_ok in Hl
    as (c0 & category & detail & value & _ & Hc0 & _ & _ & Hval & -> & _).
  apply read_csv_file in Hc0 as (t' & Ht' & _ & Hh).
  assert (t' = t) as -> by congruence.
  apply set_column_height; [done|].
  unfold numeric_column, to_numeric. simpl. rewrite !length_map.
  by eapply get_column_height.
Qed.

(** C6: [load_research_findings] has no handler: a failure of either
    read or a missing column is its own result, the error of the read
    being passed on as it is.  [update_research_findings] catches: when
    its recomputation raises, it returns two empty charts and the error
    message, and no data. *)
Theorem research_error_policies fs ff cf g tab :
  (∀ e, read_csv' fs ff [] = Err e →
        load_research_findings' fs ff cf = Err e) ∧
  (∀ f e, read_csv' fs ff [] = Ok f → read_csv' fs cf [] = Err e →
          load_research_findings' fs ff cf = Err e) ∧
  (∀ f c name,
     read_csv' fs ff [] = Ok f → read_csv' fs cf [] = Ok c →
     (name ∈ ["category"; "detail"] ∧ name ∉ map fst f) ∨
     (name = "value" ∧ name ∉ map fst c) →
     is_err (load_research_findings' fs ff cf) = true) ∧
  (∀ e, research_findings_body' fs g = Err e →
        update_research_findings' fs g tab = error_outputs) ∧
  (fs !! "health_correlations.csv" = None →
   update_research_findings' fs g tab = error_outputs) ∧
  error_outputs =
    (EmptyBarChart, EmptyBarChart,
     DivText "Error loading research findings") ∧
  research_figures error_outputs = [EmptyBarChart; EmptyBarChart].
Proof.
  split_and!; try done.
  - intros e He. unfold load_research_findings. by rewrite He.
  - intros f e Hf He. unfold load_research_findings. by rewrite Hf, He.
  - intros f c name Hf Hc Hname.
    destruct (load_research_findings' fs ff cf) as [[[f' c'] cats]|] eqn:Hl;
      [|done].
    apply load_research_findings_ok in Hl
      as (c0 & category & detail & value & Hf' & Hc0 & Hcat & Hdet & Hval
          & _).
    assert (f' = f) as -> by congruence.
    assert (c0 = c) as -> by congruence.
    apply get_column_name in Hcat, Hdet, Hval.
    destruct Hname as [[Hname Hnot]|[-> Hnot]]; [|done].
    apply elem_of_cons in Hname as [->|Hname]; [done|].
    apply list_elem_of_singleton in Hname as ->. done.
  - intros e He. unfold update_research_findings. by rewrite He.
  - intros Hfs. unfold update_research_findings, research_findings_body,
      research_charts. by rewrite (read_csv_missing _ _ _ _ Hfs).
Qed.

(** The two charts of the callback take no row with a missing value. *)
Lemma research_charts_exclude_missing fs charts :
  research_charts' fs = Ok charts →
  excludes_missing charts.1 ∧ excludes_missing charts.2.
Proof.
  unfold research_charts. intros Hc.
  apply rbind_ok in Hc as (c0 & _ & Hc).
  apply rbind_ok in Hc as (value0 & _ & Hc).
  apply rbind_ok in Hc as (value & Hvalue & Hc).
  apply rbind_ok in Hc as (metric_points & Hmetric & Hc).
  apply rbind_ok in Hc as (parameter & _ & Hc).
  apply rbind_ok in Hc as (trends_value & Htv & Hc).
  apply rbind_ok in Hc as (trend_points & Htrend & Hc).
  injection Hc as <-. simpl.
  apply chart_points_ok in Hmetric as (cx & cy & _ & Hy & ->).
  apply chart_points_ok in Htrend as (cx' & cy' & _ & Hy' & ->).
  rewrite get_column_df_mask in Hy, Hy'.
  rewrite Hvalue in Hy. rewrite Htv in Hy'.
  injection Hy as <-. injection Hy' as <-.
  split; intros p Hp; simpl in Hp; apply zip_snd_elem in Hp;
    by apply mask_notna_present in Hp.
Qed.

(** The page of key findings: its charts are the PM2.5 bar chart, which
    takes every PM2.5 row, and the health-risk scatter chart, which
    takes no row with a missing value. *)
Lemma health_correlations_body_charts df page :
  health_correlations_body (Some df) = Ok page →
  ∃ parameter detail value pm25 health size,
    get_column df "parameter" = Ok parameter ∧
    get_column df "detail" = Ok detail ∧
    get_column df "value" = Ok value ∧
    html_figures page =
      [ BarChart "PM2.5 Concentration Measurements" pm25;
        ScatterChart "Health Risk Indicators" health size ] ∧
    pm25 = mask_rows (map (cell_is "PM2.5 Levels") (col_cells parameter))
             (zip (col_cells detail) (col_cells value)) ∧
    (∀ p, p ∈ health → p.2 ≠ NA).
Proof.
  unfold health_correlations_body. intros Hb.
  apply rbind_ok in Hb as (df' & [= <-] & Hb).
  apply rbind_ok in Hb as (parameter & Hpar & Hb).
  apply rbind_ok in Hb as (value & Hval & Hb).
  apply rbind_ok in Hb as (pm25 & Hpm25 & Hb).
  apply rbind_ok in Hb as (health & Hhealth & Hb).
  injection Hb as <-.
  apply chart_points_df_mask in Hpm25 as (det & val & Hdet & Hval' & ->).
  apply chart_points_ok in Hhealth as (cx & cy & _ & Hy & ->).
  rewrite get_column_df_mask, Hval in Hy. injection Hy as <-.
  assert (val = value) as -> by congruence.
  eexists parameter, det, value, _, _, _.
  split_and!; try done.
  intros p Hp. apply zip_snd_elem in Hp. simpl in Hp.
  by apply mask_and_notna_present in Hp.
Qed.

Lemma create_health_correlations_page_scatter g fig :
  fig ∈ html_figures (create_health_correlations_page g) →
  is_scatter fig → excludes_missing fig.
Proof.
  unfold create_health_correlations_page.
  destruct (health_correlations_body g) as [page|] eqn:Hb.
  - destruct g as [df|]; [|done].
    apply health_correlations_body_charts in Hb
      as (par & det & val & pm25 & health & size & _ & _ & _ & -> & _ & Hh).
    intros Hfig Hsc.
    apply elem_of_cons in Hfig as [->|Hfig]; [done|].
    apply list_elem_of_singleton in Hfig as ->. exact Hh.
  - simpl. intros Hfig. by apply elem_of_nil in Hfig.
Qed.


(** C8, as the code has it: the summary has one entry for each category
    that occurs, rows without a category apart, and the count of a
    category is the number of its rows whose detail is not missing. *)
Theorem category_counts fs ff cf f c cats :
  load_research_findings' fs ff cf = Ok (f, c, cats) →
  ∃ category detail,
    get_column f "category" = Ok category ∧
    get_column f "detail" = Ok detail ∧
    let rows := zip (col_cells category) (col_cells detail) in
    NoDup (map fst cats) ∧
    (∀ k, k ∈ map fst cats ↔ k ≠ NA ∧ k ∈ map fst rows) ∧
    (∀ k n, (k, n) ∈ cats →
            n = length (detailed_rows_of_category k rows)).
Proof.
  intros Hl. apply load_research_findings_ok in Hl
    as (c0 & category & detail & value & _ & _ & Hcat & Hdet & _ & _ & ->).
  exists category, detail. split; [done|]. split; [done|].
  apply count_by_category_spec.
Qed.

(** The key findings follow the module-level dataset only. *)
Lemma update_research_findings_cases fs g tab :
  match research_charts' fs with
  | Ok charts =>
      update_research_findings' fs g tab =
      (charts.1, charts.2, create_health_correlations_page g)
  | Err _ => update_research_findings' fs g tab = error_outputs
  end.
Proof.
  unfold update_research_findings, research_findings_body.
  by destruct (research_charts' fs).
Qed.
End ResearchFacts.

(** C10, as the code has it: on every call in which the recomputation of
    the two charts does not raise, the key findings are
    [create_health_correlations_page] of the module-level dataset,
    whatever the file holds at that time; when it raises, the outputs are
    the error placeholders of the callback; without a module-level
    dataset the page is the fixed error block.  On the example,
    rewriting the file changes the two charts and leaves the key findings
    as they were. *)
Theorem key_findings_from_module_dataset :
  (∀ parse_number fs g tab,
     match research_charts parse_number fs with
     | Ok charts =>
         update_research_findings parse_number fs g tab =
         (charts.1, charts.2, create_health_correlations_page g)
     | Err _ =>
         update_research_findings parse_number fs g tab = error_outputs
     end) ∧
  create_health_correlations_page None =
    DivText "Error loading health correlations page" ∧
  (let before := update_research_findings example_number example_files
                   example_correlations_global None in
   let after := update_research_findings example_number example_files_later
                  example_correlations_global None in
   after.2 = before.2 ∧ after.1 ≠ before.1 ∧
   figure_points after.1.1 = [(Str "PM2.5 Levels", Num 50)] ∧
   figure_points <$> html_figures after.2 =
     [ [(Str "Annual mean", Num 35); (Str "WHO guideline", NA)];
       [(Str "Asthma odds ratio", Num 2)] ]).
Proof.
  split; [apply update_research_findings_cases|]. split; [done|].
  split_and!.
  - by vm_compute.
  - vm_compute. intros Heq. discriminate Heq.
  - by vm_compute.
  - by vm_compute.
Qed.

(** ** The program on the example files *)

(** Two readings of one sensor at one time are averaged, a reading that
    is not a number leaves its group with a missing index, and the
    humidity record is dropped. *)
Example load_example_file :
  load_and_process_sensor_data example_number example_datetime
    example_datetime_of_number Z example_randint example_files 0 42
    "sensor_reading.csv" =
  ([ Reading 50 "B" "s0" (Some (7 # 1)%Q);
     Reading 100 "A" "s1" (Some (20 # 1)%Q);
     Reading 100 "A" "s2" None ], 42).
Proof. by vm_compute. Qed.

Example load_absent_file :
  load_and_process_sensor_data example_number example_datetime
    example_datetime_of_number Z example_randint example_files 0 42
    "absent.csv" =
  create_sample_data Z example_randint 0 42.
Proof. by vm_compute. Qed.

Example format_2f_examples :
  format_2f (Some (1 # 8)%Q) = "0.12" ∧ format_2f (Some (3 # 8)%Q) = "0.38" ∧
  format_2f (Some (-5 # 2)%Q) = "-2.50" ∧ format_2f (Some (20 # 1)%Q) = "20.00" ∧
  format_2f None = "nan".
Proof. by vm_compute. Qed.

Example update_figures_example :
  (update_figures example_datetime 0%nat (Some ["A"; "C"]) (Some "T0")
     (Some "T100") example_store).1 =
  Ok (LineChart "Air Quality Index Over Time"
        [ Reading 100 "A" "s1" (Some (20 # 1)%Q); Reading 100 "A" "s2" None ],
      DailyBarChart "Daily Average Air Quality Index"
        [ ("A", 0, Some (20 # 1)%Q) ],
      Div [ Div [ H3 "Statistics for Location A";
                  P "Average AQI: 20.00";
                  P "Maximum AQI: 20.00";
                  P "Minimum AQI: 20.00";
                  P "Number of readings: 2" ];
            empty_stats_entry "C" ]).
Proof. by vm_compute. Qed.

(** Without a selection the loop over the locations raises. *)
Example update_figures_no_selection :
  (update_figures example_datetime 0%nat None None None example_store).1 =
  Err TypeError.
Proof. by vm_compute. Qed.

(** ** Counterexamples and instances on the example files *)


(** C10 as stated fails: once the file is gone, the key findings are the
    error message of the callback, not the page made from the module-level
    dataset, which is still there. *)
Lemma key_findings_lost_with_file :
  (update_research_findings example_number
     (delete "health_correlations.csv" example_files)
     example_correlations_global None).2 ≠
  create_health_correlations_page example_correlations_global.
Proof. vm_compute. intros Heq. discriminate Heq. Qed.

(** C8 as stated fails: the example findings have two rows of category
    [Health], one of them without a detail, and the summary counts one. *)
Lemma count_skips_row_without_detail :
  ∃ f c cats category detail,
    load_research_findings example_number example_files
      "research_findings.csv" "health_correlations.csv" = Ok (f, c, cats) ∧
    get_column f "category" = Ok category ∧
    get_column f "detail" = Ok detail ∧
    ¬ (∀ k n, (k, n) ∈ cats →
              n = length (rows_of_category k
                            (zip (col_cells category) (col_cells detail)))).
Proof.
  eexists _, _, _, _, _. split; [by vm_compute|].
  split; [by vm_compute|]. split; [by vm_compute|].
  intros Hall. specialize (Hall (Str "Health") 1%nat (list_elem_of_here _ _)).
  vm_compute in Hall. discriminate Hall.
Qed.


Lemma filter_step_rows_witness :
  example_store !! 0%nat = Some example_sensor_frame ∧
  date_bounds example_datetime (Some "T0") (Some "T100") (Some (0, 100)) ∧
  ∃ l σ' f,
    filter_step example_datetime 0%nat (Some ["A"]) (Some "T0") (Some "T100")
      example_store = (Ok l, σ') ∧
    σ' !! l = Some f ∧
    f_rows f = filter (in_filter (Some ["A"]) (Some (0, 100)))
                 (f_rows example_sensor_frame) ∧
    (∀ r, r ∈ f_rows f ↔
          r ∈ f_rows example_sensor_frame ∧
          location_selected (Some ["A"]) r ∧
          within_bounds (Some (0, 100)) r) ∧
    (truthy_list (Some ["A"]) = false →
     f_rows f = filter (within_bounds (Some (0, 100)))
                  (f_rows example_sensor_frame) ∧
     length (f_rows f) =
     length (filter (within_bounds (Some (0, 100)))
               (f_rows example_sensor_frame))).
Proof.
  assert (example_store !! 0%nat = Some example_sensor_frame) as Hstore
    by by vm_compute.
  assert (date_bounds example_datetime (Some "T0") (Some "T100")
            (Some (0, 100))) as Hbounds by by vm_compute.
  split; [exact Hstore|]. split; [exact Hbounds|].
  exact (filter_step_rows example_datetime example_store 0%nat
           example_sensor_frame (Some ["A"]) (Some "T0") (Some "T100")
           (Some (0, 100)) Hstore Hbounds).
Defined.

Lemma example_randint_range lo hi s :
  lo < hi → lo ≤ (example_randint lo hi s).1 < hi.
Proof.
  intros Hlt. unfold example_randint. simpl.
  pose proof (Z.mod_pos_bound s (hi - lo)). lia.
Qed.


Lemma category_counts_witness :
  load_research_findings example_number example_files
    "research_findings.csv" "health_correlations.csv" =
    Ok (example_findings_df, example_correlations_df,
        example_category_counts) ∧
  ∃ category detail,
    get_column example_findings_df "category" = Ok category ∧
    get_column example_findings_df "detail" = Ok detail ∧
    let rows := zip (col_cells category) (col_cells detail) in
    NoDup (map fst example_category_counts) ∧
    (∀ k, k ∈ map fst example_category_counts ↔
          k ≠ NA ∧ k ∈ map fst rows) ∧
    (∀ k n, (k, n) ∈ example_category_counts →
            n = length (detailed_rows_of_category k rows)).
Proof.
  assert (load_research_findings example_number example_files
            "research_findings.csv" "health_correlations.csv" =
          Ok (example_findings_df, example_correlations_df,
              example_category_counts)) as Hload by by vm_compute.
  split; [exact Hload|].
  exact (category_counts example_number example_files "research_findings.csv"
           "health_correlations.csv" example_findings_df
           example_correlations_df example_category_counts Hload).
Defined.

Lemma create_sample_data_shape_witness :
  (∀ lo hi s, lo < hi → lo ≤ (example_randint lo hi s).1 < hi) ∧
  let rows := (create_sample_data Z example_randint 0 42).1 in
  length rows = 90%nat ∧
  place_and_day <$> rows = list_prod sample_locations (date_range 0 30) ∧
  NoDup (place_and_day <$> rows) ∧
  length (date_range 0 30) = 30%nat ∧
  (∀ i, (i < 30)%nat →
        date_range 0 30 !! i = Some (0 - Z.of_nat (29 - i) * day_ns)) ∧
  length sensor_pool = 4%nat ∧ NoDup sensor_pool ∧
  (∀ k k', sensor_label k = sensor_label k' → k = k') ∧
  (∀ i r, rows !! i = Some r →
     let a := draw_index example_randint (state_after example_randint i 42) in
     let k := draw_sensor example_randint (state_after example_randint i 42) in
     air_quality_index r = Some (inject_Z a) ∧ 0 ≤ a < 200 ∧
     sensor_id r = sensor_label k ∧ 1 ≤ k < 5 ∧
     sensor_id r ∈ sensor_pool) ∧
  rows = rows_of_draws 0 (draws example_randint 42 90) ∧
  (∀ i v, (i < 90)%nat → 0 ≤ v < 200 →
     (length (filter (fun ω => air_quality_index <$> rows_of_draws 0 ω !! i
                               = Some (Some (inject_Z v)))
                (outcomes 90)) * 200 =
      length (outcomes 90))%nat) ∧
  (∀ i label, (i < 90)%nat → label ∈ sensor_pool →
     (length (filter (fun ω => sensor_id <$> rows_of_draws 0 ω !! i
                               = Some label)
                (outcomes 90)) * 4 =
      length (outcomes 90))%nat).
Proof.
  split; [exact example_randint_range|].
  exact (create_sample_data_shape example_randint 0 42 example_randint_range).
Defined.


(** * Further properties of the code *)

(** ** The order of the groups *)

Section SortFacts.
Context {K V : Type} `{EqDecision K}.
Variable leb : K → K → bool.
Hypothesis leb_total : ∀ a b, leb a b = false → leb b a = true.

Local Abbreviation group_le :=
  (fun g h : K * list V => leb g.1 h.1 = true).

Lemma insert_group_HdRel (x g : K * list V) gs :
  group_le x g → HdRel group_le x gs →
  HdRel group_le x (insert_group leb g gs).
Proof.
  intros Hxg Hx. destruct gs as [|h gs]; simpl; [by constructor|].
  destruct (leb g.1 h.1); constructor; [done|].
  by apply HdRel_inv in Hx.
Qed.

Lemma insert_group_Sorted (g : K * list V) gs :
  Sorted group_le gs → Sorted group_le (insert_group leb g gs).
Proof.
  induction 1 as [|h gs Hs IH Hh]; simpl; [by repeat constructor|].
  destruct (leb g.1 h.1) eqn:Hgh.
  - constructor; [by constructor|by constructor].
  - constructor; [done|]. apply insert_group_HdRel; [|done].
    by apply leb_total.
Qed.

(** The groups come out in key order. *)
Lemma groupby_Sorted (rows : list (K * V)) :
  Sorted group_le (groupby leb rows).
Proof.
  unfold groupby, sort_groups.
  induction (group_rows rows []) as [|g gs IH]; simpl; [constructor|].
  by apply insert_group_Sorted.
Qed.
End SortFacts.

Lemma string_compare_refl s : (s ?= s)%string = Eq.
Proof.
  pose proof (String.compare_antisym s s) as Hs.
  by destruct (s ?= s)%string.
Qed.

Lemma sensor_key_leb_le a b :
  sensor_key_leb a b = true ↔ sensor_key_le a b.
Proof.
  destruct a as [[t1 l1] s1], b as [[t2 l2] s2].
  unfold sensor_key_leb, sensor_key_le, String.le. simpl.
  destruct (Z.ltb_spec t1 t2) as [Hlt|Hge]; [split; [by left|done]|].
  destruct (Z.ltb_spec t2 t1) as [Hlt'|Hge'].
  { split; [done|]. intros [?|[? _]]; lia. }
  assert (t1 = t2) as -> by lia.
  destruct (l1 ?= l2)%string eqn:Hl.
  - apply String.compare_eq_iff in Hl as ->. rewrite Is_true_true. split.
    + intros Hs. right. split; [done|]. by right.
    + intros [?|[_ [?|[_ ?]]]]; [lia|done|done].
  - split; [|done]. intros _. right. split; [done|]. by left.
  - split; [done|]. intros [?|[_ [?|[Heq _]]]]; [lia|done|].
    subst l2. rewrite string_compare_refl in Hl. done.
Qed.

Lemma sensor_key_leb_total a b :
  sensor_key_leb a b = false → sensor_key_leb b a = true.
Proof.
  destruct a as [[t1 l1] s1], b as [[t2 l2] s2]. unfold sensor_key_leb.
  destruct (Z.ltb_spec t1 t2) as [Hlt|Hge]; [done|].
  destruct (Z.ltb_spec t2 t1) as [Hlt'|Hge']; [done|].
  rewrite (String.compare_antisym l1 l2).
  destruct (l2 ?= l1)%string; simpl; [|done..].
  intros Hs. destruct (String.leb_total s1 s2); congruence.
Qed.

Lemma aggregate_Sorted rows : Sorted reading_le (aggregate rows).
Proof.
  unfold aggregate. change (map ?f ?l) with (f <$> l).
  eapply Sorted_fmap;
    [|apply (groupby_Sorted sensor_key_leb sensor_key_leb_total)].
  intros [[[t1 l1] s1] vs1] [[[t2 l2] s2] vs2] Hle.
  by apply sensor_key_leb_le.
Qed.

Lemma aggregate_chronological rows :
  StronglySorted Z.le (timestamp <$> aggregate rows).
Proof.
  apply Sorted_StronglySorted; [apply _|].
  eapply Sorted_fmap; [|apply aggregate_Sorted].
  intros r r' [Hlt|[Heq _]]; simpl in *; lia.
Qed.

(** The aggregated dataset is in the order of its keys: by timestamp,
    then location, then sensor; in particular it is chronological. *)
Theorem aggregate_in_key_order rows :
  Sorted reading_le (aggregate rows) ∧
  StronglySorted Z.le (timestamp <$> aggregate rows).
Proof. split; [apply aggregate_Sorted|apply aggregate_chronological]. Qed.

(** ** Quote stripping *)

Lemma lstrip_quote_first s : first_char (lstrip_quote s) ≠ Some quote.
Proof.
  induction s as [|c s IH]; simpl; [done|].
  case_decide; [done|]. simpl. congruence.
Qed.

Lemma lstrip_quote_id s : first_char s ≠ Some quote → lstrip_quote s = s.
Proof.
  destruct s as [|c s]; simpl; [done|]. intros Hc.
  rewrite decide_False; [done|]. congruence.
Qed.

Lemma last_char_cons c s :
  last_char (String c s) = Some (default c (last_char s)).
Proof.
  revert c. induction s as [|c' s IH]; intros c; [done|].
  change (last_char (String c (String c' s))) with (last_char (String c' s)).
  by rewrite IH.
Qed.

Lemma lstrip_quote_last s :
  lstrip_quote s = "" ∨ last_char (lstrip_quote s) = last_char s.
Proof.
  induction s as [|c s IH]; [by left|].
  cbn [lstrip_quote]. case_decide; [|by right].
  destruct s as [|c' s']; [by left|].
  destruct IH as [->|Hl]; [by left|]. by right.
Qed.

Lemma rev_app_first s acc :
  first_char (String.rev_app s acc) =
  match last_char s with Some c => Some c | None => first_char acc end.
Proof.
  revert acc. induction s as [|c s IH]; intros acc; simpl; [done|].
  rewrite IH. destruct s; [done|]. by rewrite last_char_cons.
Qed.

Lemma rev_app_last s acc :
  last_char (String.rev_app s acc) =
  match last_char acc with Some c => Some c | None => first_char s end.
Proof.
  revert acc. induction s as [|c s IH]; intros acc; simpl.
  - by destruct (last_char acc).
  - rewrite IH, last_char_cons. by destruct (last_char acc).
Qed.

Lemma rev_app_rev_app s acc acc' :
  String.rev_app (String.rev_app s acc) acc' =
  String.rev_app acc (s +:+ acc').
Proof.
  revert acc acc'. induction s as [|c s IH]; intros acc acc'; simpl; [done|].
  by rewrite IH.
Qed.

Lemma string_rev_involutive s : String.rev (String.rev s) = s.
Proof.
  unfold String.rev. rewrite rev_app_rev_app. cbn [String.rev_app].
  induction s as [|c s IH]; [done|].
  change (String c (s +:+ "") = String c s). by f_equal.
Qed.

(** Stripping leaves no quote at either end, changes nothing when there
    is none, and so need not be done twice. *)
Lemma strip_quote_unquoted s : unquoted (strip_quote s).
Proof.
  unfold unquoted, strip_quote, String.rev at 1. split.
  - rewrite rev_app_first. simpl.
    destruct (lstrip_quote_last (String.rev (lstrip_quote s)))
      as [Hempty | Hlast]; [by rewrite Hempty|]. rewrite Hlast.
    unfold String.rev. rewrite rev_app_last. simpl.
    pose proof (lstrip_quote_first s) as Hf.
    destruct (first_char (lstrip_quote s)); [congruence|done].
  - unfold String.rev at 1. rewrite rev_app_last. simpl.
    apply lstrip_quote_first.
Qed.

Lemma strip_quote_id s : unquoted s → strip_quote s = s.
Proof.
  intros [Hf Hl]. unfold strip_quote.
  rewrite (lstrip_quote_id s Hf), lstrip_quote_id;
    [apply string_rev_involutive|].
  unfold String.rev. rewrite rev_app_first. simpl.
  by destruct (last_char s).
Qed.

Lemma strip_quote_idemp s : strip_quote (strip_quote s) = strip_quote s.
Proof. apply strip_quote_id, strip_quote_unquoted. Qed.

Lemma append_cons c s t : String c s +:+ t = String c (s +:+ t).
Proof. done. Qed.

Lemma append_assoc (a b c : string) : (a +:+ b) +:+ c = a +:+ (b +:+ c).
Proof.
  induction a as [|x a IH]; [done|]. rewrite !append_cons. by f_equal.
Qed.

Lemma append_empty_r (a : string) : a +:+ "" = a.
Proof. induction a as [|x a IH]; [done|]. rewrite append_cons. by f_equal. Qed.

Lemma quotes_snoc n t : quotes n +:+ String quote t = String quote (quotes n +:+ t).
Proof.
  induction n as [|n IH]; [done|]. cbn [quotes].
  rewrite !append_cons. by rewrite IH.
Qed.

Lemma lstrip_quote_prefix s : ∃ n, s = quotes n +:+ lstrip_quote s.
Proof.
  induction s as [|c s [n IH]]; [by exists 0%nat|].
  cbn [lstrip_quote]. case_decide as Hc; [|by exists 0%nat].
  subst c. exists (S n). cbn [quotes]. rewrite append_cons. by f_equal.
Qed.

Lemma rev_app_append a b acc :
  String.rev_app (a +:+ b) acc = String.rev_app b (String.rev_app a acc).
Proof.
  revert acc. induction a as [|x a IH]; intros acc; [done|].
  rewrite append_cons. cbn [String.rev_app]. by rewrite IH.
Qed.

Lemma rev_app_acc s acc : String.rev_app s acc = String.rev s +:+ acc.
Proof.
  unfold String.rev. revert acc.
  induction s as [|x s IH]; intros acc; [done|]. cbn [String.rev_app].
  rewrite (IH (String x acc)), (IH (String x "")), append_assoc. done.
Qed.

Lemma rev_app_quotes n acc : String.rev_app (quotes n) acc = quotes n +:+ acc.
Proof.
  revert acc. induction n as [|n IH]; intros acc; [done|].
  cbn [quotes String.rev_app]. by rewrite IH, quotes_snoc, append_cons.
Qed.

(** [strip("'")] removes quotes only, from the two ends only, and leaves
    none there: the string is its stripped form between two runs of
    quotes.  Hence it changes nothing in a string without a quote at
    either end, and need not be done twice. *)
Theorem strip_quote_spec s :
  (∃ n m, s = quotes n +:+ strip_quote s +:+ quotes m) ∧
  unquoted (strip_quote s) ∧
  (unquoted s → strip_quote s = s) ∧
  strip_quote (strip_quote s) = strip_quote s.
Proof.
  split_and!;
    [|apply strip_quote_unquoted|apply strip_quote_id|apply strip_quote_idemp].
  destruct (lstrip_quote_prefix s) as [n Hn].
  destruct (lstrip_quote_prefix (String.rev (lstrip_quote s))) as [m Hm].
  exists n, m. unfold strip_quote.
  set (u := lstrip_quote (String.rev (lstrip_quote s))) in *.
  apply (f_equal String.rev) in Hm.
  rewrite string_rev_involutive in Hm. unfold String.rev at 1 in Hm.
  rewrite rev_app_append, rev_app_quotes, append_empty_r, rev_app_acc in Hm.
  by rewrite <- Hm.
Qed.

(** ** Where the aggregated rows come from *)

Lemma get_set_column_eq df name c :
  get_column (set_column df name c) name = Ok c.
Proof.
  induction df as [|[n c'] df IH]; simpl.
  - by rewrite decide_True.
  - destruct (decide (n = name)) as [->|Hne]; simpl.
    + by rewrite decide_True.
    + by rewrite decide_False.
Qed.

(** After the loop of lines 29-30 a stripped column holds stripped
    cells. *)
Lemma strip_columns_stripped cols df df' col c :
  strip_columns cols df = Ok df' → col ∈ cols →
  get_column df' col = Ok c →
  ∃ cells, col_cells c = map strip_cell cells.
Proof.
  revert df. induction cols as [|col0 cols IH]; intros df Hs Hin Hc.
  - by apply elem_of_nil in Hin.
  - simpl in Hs.
    apply rbind_ok in Hs as (c0 & Hc0 & Hs).
    apply rbind_ok in Hs as (c0' & Hc0' & Hs).
    destruct (decide (col ∈ cols)) as [Hcols|Hcols]; [by eapply IH|].
    apply elem_of_cons in Hin as [->|Hin]; [|done].
    rewrite (strip_columns_other _ _ _ _ Hcols Hs), get_set_column_eq in Hc.
    injection Hc as <-. unfold str_strip in Hc0'.
    apply rbind_ok in Hc0' as (cells & _ & [= <-]). by exists cells.
Qed.

Lemma stripped_cell_unquoted cells a s :
  a ∈ map strip_cell cells → cell_str a = Some s → unquoted s.
Proof.
  intros Ha Hs. apply list_elem_of_fmap in Ha as (a0 & -> & _).
  destruct a0 as [|s0|q]; simpl in Hs; [done| |done].
  injection Hs as <-. apply strip_quote_unquoted.
Qed.

Lemma zip_sensor_rows_elem sid sty loc vty ts aqi x :
  x ∈ zip_sensor_rows sid sty loc vty ts aqi →
  ∃ a c, a ∈ sid ∧ c ∈ loc ∧
         sr_sensor_id x = cell_str a ∧ sr_location x = cell_str c.
Proof.
  unfold zip_sensor_rows. intros Hx.
  apply list_elem_of_fmap in Hx
    as ([a [b [c [d [e f]]]]] & -> & Hin).
  exists a, c. split_and!; try done.
  - by apply elem_of_zip_l in Hin.
  - apply elem_of_zip_r, elem_of_zip_r in Hin. by apply elem_of_zip_l in Hin.
Qed.

(** Every aggregated row has the key of one of the rows it was made
    of. *)
Lemma aggregate_sound rows r :
  r ∈ aggregate rows →
  ∃ x, x ∈ rows ∧ sensor_row_key x = Some (reading_key r).
Proof.
  intros Hr.
  assert (reading_key r ∈ map reading_key (aggregate rows)) as Hk.
  { apply list_elem_of_fmap. by exists r. }
  rewrite aggregate_keys, groupby_keys in Hk.
  apply list_elem_of_fmap in Hk as ([k v] & Hkey & Hin). simpl in Hkey.
  apply list_elem_of_omap in Hin as (x & Hx & Hkx).
  exists x. split; [done|]. unfold keyed_row in Hkx.
  destruct (sensor_row_key x) as [k'|]; simpl in Hkx; [|done].
  injection Hkx as -> _. by rewrite Hkey.
Qed.

Lemma sensor_row_key_parts x t l s :
  sensor_row_key x = Some (t, l, s) →
  sr_timestamp x = Some t ∧ sr_location x = Some l ∧ sr_sensor_id x = Some s.
Proof.
  unfold sensor_row_key.
  destruct (sr_timestamp x) as [t'|]; simpl; [|done].
  destruct (sr_location x) as [l'|]; simpl; [|done].
  destruct (sr_sensor_id x) as [s'|]; simpl; [|done].
  by intros [= -> -> ->].
Qed.

(** A row without a timestamp, a location or a sensor takes no part in
    the aggregation. *)
Theorem aggregate_skips_incomplete_rows rows1 x rows2 :
  sensor_row_key x = None →
  aggregate (rows1 ++ x :: rows2) = aggregate (rows1 ++ rows2).
Proof.
  intros Hx. unfold aggregate. rewrite !omap_app. cbn [omap list_omap].
  unfold keyed_row at 2. by rewrite Hx.
Qed.

Section PipelineFacts.
Variable parse_number : string → option Q.
Variable parse_datetime : string → option Z.
Variable datetime_of_number : Q → option Z.

Local Abbreviation sensor_rows' :=
  (sensor_rows parse_number parse_datetime datetime_of_number).
Local Abbreviation sensor_pipeline' :=
  (sensor_pipeline parse_number parse_datetime datetime_of_number).

Lemma sensor_rows_unquoted fs path all x :
  sensor_rows' fs path = Ok all → x ∈ all →
  (∀ s, sr_sensor_id x = Some s → unquoted s) ∧
  (∀ s, sr_location x = Some s → unquoted s).
Proof.
  unfold sensor_rows. intros Hall Hx.
  apply rbind_ok in Hall as (df & Hdf & Hall).
  apply rbind_ok in Hall as (df' & Hdf' & Hall).
  apply rbind_ok in Hall as (ts_col & Hts_col & Hall).
  apply rbind_ok in Hall as (ts & Hts & Hall).
  apply rbind_ok in Hall as (aqi_col & Haqi_col & Hall).
  apply rbind_ok in Hall as (aqi_str & Haqi_str & Hall).
  apply rbind_ok in Hall as (sid & Hsid & Hall).
  apply rbind_ok in Hall as (sty & Hsty & Hall).
  apply rbind_ok in Hall as (loc & Hloc & Hall).
  apply rbind_ok in Hall as (vty & Hvty & Hall).
  injection Hall as <-.
  apply zip_sensor_rows_elem in Hx as (a & c & Ha & Hc & -> & ->).
  destruct (strip_columns_stripped _ _ _ "sensor_id" sid Hdf')
    as [cells Hcells]; [compute_done|done|].
  destruct (strip_columns_stripped _ _ _ "location" loc Hdf')
    as [cells' Hcells']; [compute_done|done|].
  rewrite Hcells in Ha. rewrite Hcells' in Hc.
  split; intros s Hs.
  - exact (stripped_cell_unquoted cells a s Ha Hs).
  - exact (stripped_cell_unquoted cells' c s Hc Hs).
Qed.

(** Every row of the loaded dataset stands for at least one record of
    the file whose value type is P0, P1 or P2 and which has the row's
    timestamp, location and sensor; and the location and the sensor of
    the row have no quote left at either end. *)
Theorem loaded_rows_are_clean_measurements fs path out :
  sensor_pipeline' fs path = Ok out →
  ∃ all,
    sensor_rows' fs path = Ok all ∧
    ∀ r, r ∈ out →
      unquoted (location r) ∧ unquoted (sensor_id r) ∧
      ∃ x v, x ∈ all ∧
             sr_value_type x = Some v ∧ v ∈ ["P0"; "P1"; "P2"] ∧
             sr_timestamp x = Some (timestamp r) ∧
             sr_location x = Some (location r) ∧
             sr_sensor_id x = Some (sensor_id r).
Proof.
  unfold sensor_pipeline, clean_sensor_data. intros Hout.
  apply rbind_ok in Hout as (rows & Hrows & [= <-]).
  apply rbind_ok in Hrows as (all & Hall & [= <-]).
  exists all. split; [done|]. intros r Hr.
  apply aggregate_sound in Hr as (x & Hx & Hkey).
  apply list_elem_of_filter in Hx as [Hm Hx].
  apply sensor_row_key_parts in Hkey as (Ht & Hl & Hs).
  destruct (sensor_rows_unquoted fs path all x Hall Hx) as [Hsid Hloc].
  split_and!; [by apply Hloc|by apply Hsid|].
  unfold is_measurement in Hm.
  destruct (sr_value_type x) as [v|] eqn:Hv; [|done].
  exists x, v. split_and!; try done.
  by apply bool_decide_unpack in Hm.
Qed.
End PipelineFacts.

(** ** The whole filter callback *)

Lemma values_at_fmap {A K V} `{EqDecision K} (key : A → K) (val : A → V)
    (k : K) (l : list A) :
  values_at k ((fun x => (key x, val x)) <$> l) =
  val <$> filter (fun x => key x = k) l.
Proof.
  unfold values_at. induction l as [|x l IH]; [done|].
  rewrite fmap_cons, !filter_cons. simpl.
  destruct (decide (key x = k)); simpl; by rewrite IH.
Qed.

Section UpdateFiguresFacts.
Variable parse_datetime : string → option Z.

Local Abbreviation daily_of :=
  (fun rows : list reading =>
     map (fun '(k, vs) => (k, nanmean vs))
       (groupby string_Z_leb
          ((fun r => (place_and_date r, air_quality_index r)) <$> rows))).

(** What the callback returns, in terms of the filtered rows. *)
Lemma update_figures_run σ sensor_data df locs start_date end_date bounds :
  σ !! sensor_data = Some df →
  date_bounds parse_datetime start_date end_date bounds →
  (update_figures parse_datetime sensor_data (Some locs) start_date end_date
     σ).1 =
  let rows := filter (in_filter (Some locs) bounds) (f_rows df) in
  Ok (LineChart "Air Quality Index Over Time" rows,
      DailyBarChart "Daily Average Air Quality Index" (daily_of rows),
      Div (map (fun loc =>
                  location_statistics loc
                    (filter (fun r => location_is loc r) rows)) locs)).
Proof.
  intros Hsd Hb.
  destruct (filter_step_run parse_datetime σ sensor_data df (Some locs)
              start_date end_date bounds Hsd Hb)
    as (l & σ1 & f & Hrun & _ & _ & Hf & Hrows).
  unfold update_figures. rewrite M_bind_run, Hrun.
  rewrite M_bind_run, (get_frame_run _ _ _ Hf), M_bind_run.
  unfold df_set_date. rewrite M_bind_run, (get_frame_run _ _ _ Hf).
  unfold set_frame.
  set (f2 := Frame (f_rows f) (Some (map (fun r => date_of (timestamp r))
                                       (f_rows f)))).
  set (σ2 := <[l := f2]> σ1).
  assert (σ2 !! l = Some f2) as Hf2 by apply lookup_insert_eq.
  rewrite M_bind_run. unfold daily_average.
  rewrite M_bind_run, (get_frame_run _ _ _ Hf2). cbn [f_date f2].
  rewrite M_ret_run, M_bind_run.
  destruct (statistics_run σ2 l f2 locs Hf2) as (σ' & -> & _).
  rewrite M_ret_run. cbn [fst f_rows f2]. rewrite Hrows.
  do 3 f_equal. change (map ?g ?k) with (g <$> k) at 2.
  rewrite zip_with_fmap_r, zip_with_diag. done.
Qed.

End UpdateFiguresFacts.

Section UpdateFiguresErrors.
Variable parse_datetime : string → option Z.

(** An absent selection passes the filter step and is then iterated
    over: the callback raises [TypeError], whatever the dataset and the
    dates. *)
Theorem update_figures_absent_selection σ sensor_data df start_date end_date
    bounds :
  σ !! sensor_data = Some df →
  date_bounds parse_datetime start_date end_date bounds →
  (update_figures parse_datetime sensor_data None start_date end_date σ).1 =
  Err TypeError.
Proof.
  intros Hsd Hb.
  destruct (filter_step_run parse_datetime σ sensor_data df None
              start_date end_date bounds Hsd Hb)
    as (l & σ1 & f & Hrun & _ & _ & Hf & Hrows).
  unfold update_figures. rewrite M_bind_run, Hrun.
  rewrite M_bind_run, (get_frame_run _ _ _ Hf), M_bind_run.
  unfold df_set_date. rewrite M_bind_run, (get_frame_run _ _ _ Hf).
  unfold set_frame.
  set (f2 := Frame (f_rows f) (Some (map (fun r => date_of (timestamp r))
                                       (f_rows f)))).
  set (σ2 := <[l := f2]> σ1).
  assert (σ2 !! l = Some f2) as Hf2 by apply lookup_insert_eq.
  rewrite M_bind_run. unfold daily_average.
  rewrite M_bind_run, (get_frame_run _ _ _ Hf2). cbn [f_date f2].
  by rewrite M_ret_run, M_bind_run.
Qed.

Lemma filter_step_bad_date σ sensor_data df selected start_date end_date :
  σ !! sensor_data = Some df →
  truthy_str start_date = true → truthy_str end_date = true →
  start_date ≫= parse_datetime = None ∨ end_date ≫= parse_datetime = None →
  (filter_step parse_datetime sensor_data selected start_date end_date σ).1 =
  Err TypeError.
Proof.
  intros Hsd Hts Hte Hbad. unfold filter_step.
  rewrite M_bind_run, (df_copy_run _ _ _ Hsd).
  set (l1 := fresh (dom σ)). set (σ1 := <[l1 := df]> σ).
  rewrite M_bind_run.
  destruct (location_step_run σ σ1 l1 df selected
              (insert_subseteq _ _ _ (fresh_lookup σ))
              (fresh_lookup σ) (lookup_insert_eq _ _ _))
    as (l2 & σ2 & f2 & -> & _).
  rewrite Hts, Hte. cbn [andb]. rewrite M_bind_run. unfold parse_bound at 1.
  destruct (start_date ≫= parse_datetime) as [s|] eqn:Hs; [|done].
  rewrite M_ret_run, M_bind_run. unfold parse_bound.
  destruct Hbad as [?|He]; [done|]. by rewrite He.
Qed.

(** When both dates are given and one of them is not a date, the
    comparison with the timestamps raises [TypeError] and the callback
    with it. *)
Theorem update_figures_bad_date σ sensor_data df selected start_date
    end_date :
  σ !! sensor_data = Some df →
  truthy_str start_date = true → truthy_str end_date = true →
  start_date ≫= parse_datetime = None ∨ end_date ≫= parse_datetime = None →
  (update_figures parse_datetime sensor_data selected start_date end_date
     σ).1 = Err TypeError.
Proof.
  intros Hsd Hts Hte Hbad.
  pose proof (filter_step_bad_date σ sensor_data df selected start_date
                end_date Hsd Hts Hte Hbad) as Hstep.
  unfold update_figures. rewrite M_bind_run.
  destruct (filter_step _ _ _ _ _ σ) as [[l|e] σ1]; simpl in Hstep; [done|].
  by injection Hstep as ->.
Qed.
End UpdateFiguresErrors.

(** ** The readings counted *)

Lemma filter_location_count (locs : list string) (rows : list reading) :
  NoDup locs → (∀ r, r ∈ rows → location r ∈ locs) →
  sum_list ((fun loc => length (filter (fun r => location r = loc) rows))
              <$> locs) = length rows.
Proof.
  intros Hnd. revert rows.
  induction Hnd as [|loc locs Hloc Hnd IH]; intros rows Hall.
  - destruct rows as [|r rows]; [done|].
    specialize (Hall r (list_elem_of_here _ _)). by apply elem_of_nil in Hall.
  - rewrite fmap_cons.
    change (sum_list (?x :: ?l)) with (x + sum_list l)%nat.
    set (rest := filter (fun r => location r ≠ loc) rows).
    assert ((fun loc' => length (filter (fun r => location r = loc') rows))
              <$> locs =
            (fun loc' => length (filter (fun r => location r = loc') rest))
              <$> locs) as ->.
    { apply list_fmap_ext. intros i loc' Hloc'.
      apply list_elem_of_lookup_2 in Hloc'. f_equal. unfold rest.
      rewrite list_filter_filter. apply list_filter_iff.
      intros r. split; [|tauto]. intros ->. split; [done|]. by intros ->. }
    rewrite (IH rest).
    + pose proof (filter_app_complement (fun r => location r = loc) rows)
        as Hperm.
      apply Permutation_length in Hperm. by rewrite length_app in Hperm.
    + intros r Hr. apply list_elem_of_filter in Hr as [Hne Hr].
      specialize (Hall r Hr). apply elem_of_cons in Hall as [?|?]; done.
Qed.

Section CountFacts.
Variable parse_datetime : string → option Z.

(** With a selection that is not empty and names no location twice, the
    numbers of readings shown by the statistics blocks add up to the
    number of rows of the line chart. *)
Theorem statistics_counts_add_up σ sensor_data df locs start_date end_date
    bounds :
  σ !! sensor_data = Some df →
  date_bounds parse_datetime start_date end_date bounds →
  locs ≠ [] → NoDup locs →
  ∃ rows daily blocks counts,
    (update_figures parse_datetime sensor_data (Some locs) start_date
       end_date σ).1 =
      Ok (LineChart "Air Quality Index Over Time" rows, daily, Div blocks) ∧
    Forall2 shows_count counts blocks ∧
    sum_list counts = length rows.
Proof.
  intros Hsd Hb Hne Hnd.
  pose proof (update_figures_run parse_datetime σ sensor_data df locs
                start_date end_date bounds Hsd Hb) as Hrun.
  cbn zeta in Hrun.
  set (rows := filter (in_filter (Some locs) bounds) (f_rows df)) in *.
  eexists rows, _, _,
    ((fun loc => length (filter (fun r => location r = loc) rows)) <$> locs).
  split; [exact Hrun|]. split.
  - apply Forall2_fmap_l, Forall2_map_diag. intros loc.
    eexists. split; [done|]. cbn [last]. do 4 f_equal.
    apply (f_equal length), list_filter_iff. intros r.
    unfold location_is. by rewrite bool_decide_spec.
  - apply filter_location_count; [done|]. intros r Hr.
    apply list_elem_of_filter in Hr as [[Hsel _] _].
    by destruct locs.
Qed.
End CountFacts.

(** ** The research charts *)

Lemma elem_of_mask_snd_zip (f : cell → bool) (P V : list cell) p :
  p ∈ mask_rows (map f V) (zip P V) ↔ p ∈ zip P V ∧ f p.2 = true.
Proof.
  rewrite elem_of_mask_rows. change (map f V) with (f <$> V). split.
  - intros (i & Hm & Hp). split; [by eapply list_elem_of_lookup_2|].
    apply lookup_zip_with_Some in Hp as (x & y & -> & _ & Hy).
    rewrite list_lookup_fmap, Hy in Hm. simpl in *. congruence.
  - intros [Hp Hf]. apply list_elem_of_lookup in Hp as [i Hi].
    exists i. split; [|done].
    apply lookup_zip_with_Some in Hi as (x & y & -> & _ & Hy).
    rewrite list_lookup_fmap, Hy. simpl in *. by rewrite Hf.
Qed.

Lemma elem_of_mask_fst_zip (f : cell → bool) (P V : list cell) p :
  p ∈ mask_rows (map f P) (zip P V) ↔ p ∈ zip P V ∧ f p.1 = true.
Proof.
  rewrite elem_of_mask_rows. change (map f P) with (f <$> P). split.
  - intros (i & Hm & Hp). split; [by eapply list_elem_of_lookup_2|].
    apply lookup_zip_with_Some in Hp as (x & y & -> & Hx & _).
    rewrite list_lookup_fmap, Hx in Hm. simpl in *. congruence.
  - intros [Hp Hf]. apply list_elem_of_lookup in Hp as [i Hi].
    exists i. split; [|done].
    apply lookup_zip_with_Some in Hi as (x & y & -> & Hx & _).
    rewrite list_lookup_fmap, Hx. simpl in *. by rewrite Hf.
Qed.

Lemma cell_isin_overview c :
  cell_isin ["PM2.5 Levels"; "Health Implications"] c = true ↔
  c ∈ overview_parameters.
Proof.
  unfold overview_parameters. destruct c as [|s|q]; simpl.
  - split; [done|]. intros Hin.
    repeat (apply elem_of_cons in Hin as [?|Hin]; [done|]).
    by apply elem_of_nil in Hin.
  - rewrite bool_decide_eq_true, !elem_of_cons, !elem_of_nil.
    split; intros [?|[?|?]]; auto; try done; left + (right; left);
      congruence.
  - split; [done|]. intros Hin.
    repeat (apply elem_of_cons in Hin as [?|Hin]; [done|]).
    by apply elem_of_nil in Hin.
Qed.

Section ChartFacts.
Variable parse_number : string → option Q.

(** The two charts in terms of the columns of the frame read again. *)
Lemma research_charts_points fs charts :
  research_charts parse_number fs = Ok charts →
  ∃ P V : list cell,
    charts.1 = BarChart "Health Impact Metrics"
                 (mask_rows (map notna V) (zip P V)) ∧
    let m := map (cell_isin ["PM2.5 Levels"; "Health Implications"]) P in
    let P' := mask_rows m P in
    let V' := mask_rows m V in
    let trend := mask_rows (map notna V') (zip P' V') in
    charts.2 = ScatterChart "Health Correlations Overview" trend
                 (replicate (length trend) 20).
Proof.
  unfold research_charts. intros Hc.
  apply rbind_ok in Hc as (c0 & _ & Hc).
  apply rbind_ok in Hc as (value0 & _ & Hc).
  apply rbind_ok in Hc as (value & Hvalue & Hc).
  apply rbind_ok in Hc as (metric_points & Hmetric & Hc).
  apply rbind_ok in Hc as (parameter & Hpar & Hc).
  apply rbind_ok in Hc as (trends_value & Htv & Hc).
  apply rbind_ok in Hc as (trend_points & Htrend & Hc).
  injection Hc as <-. cbn [fst snd].
  apply chart_points_df_mask in Hmetric as (cx & cy & Hx & Hy & ->).
  apply chart_points_df_mask in Htrend as (cx' & cy' & Hx' & Hy' & ->).
  rewrite get_column_df_mask in Hx', Hy', Htv.
  rewrite Hpar in Hx, Hx'. rewrite Hvalue in Hy, Hy', Htv.
  injection Hx as <-. injection Hy as <-.
  injection Hx' as <-. injection Hy' as <-. injection Htv as <-.
  exists (col_cells parameter), (col_cells value). by split.
Qed.

(** The overview chart shows the points of the health-metrics chart
    whose parameter is one of the two it is about, and no other point. *)
Theorem overview_points_among_metrics fs charts :
  research_charts parse_number fs = Ok charts →
  ∀ p, p ∈ figure_points charts.2 ↔
       p ∈ figure_points charts.1 ∧ p.1 ∈ overview_parameters.
Proof.
  intros Hc p.
  destruct (research_charts_points fs charts Hc) as (P & V & -> & ->).
  cbn [figure_points]. rewrite <- mask_rows_zip.
  rewrite !elem_of_mask_rows. split.
  - intros (i & Hm & Hp).
    assert (p ∈ mask_rows
              (map (cell_isin ["PM2.5 Levels"; "Health Implications"]) P)
              (zip P V)) as Hin by by eapply list_elem_of_lookup_2.
    apply elem_of_mask_fst_zip in Hin as [Hin Hpar].
    assert (notna p.2 = true) as Hna.
    { change (map notna ?l) with (notna <$> l) in Hm.
      rewrite list_lookup_fmap in Hm.
      destruct (mask_rows _ V !! i) as [v|] eqn:Hv; [|done].
      rewrite mask_rows_zip in Hp.
      apply lookup_zip_with_Some in Hp as (x & y & -> & _ & Hy).
      simpl in *. congruence. }
    split; [|by apply cell_isin_overview].
    apply elem_of_mask_rows, elem_of_mask_snd_zip. done.
  - intros [Hin Hpar].
    apply elem_of_mask_rows, elem_of_mask_snd_zip in Hin as [Hin Hna].
    assert (p ∈ mask_rows
              (map (cell_isin ["PM2.5 Levels"; "Health Implications"]) P)
              (zip P V)) as Hin'.
    { apply elem_of_mask_fst_zip. split; [done|].
      by apply cell_isin_overview. }
    apply list_elem_of_lookup in Hin' as [i Hi]. exists i. split; [|done].
    rewrite mask_rows_zip in Hi.
    apply lookup_zip_with_Some in Hi as (x & y & -> & _ & Hy).
    change (map notna ?l) with (notna <$> l).
    rewrite list_lookup_fmap, Hy. simpl in *. by rewrite Hna.
Qed.
End ChartFacts.

(** ** The page of key findings *)


(** ** The controls of the layout *)

Section UniqueFacts.
Context {A : Type} `{EqDecision A}.
Implicit Types (x : A) (seen l : list A).

Lemma unique_from_elem x seen l :
  x ∈ unique_from seen l ↔ x ∈ seen ∨ x ∈ l.
Proof.
  revert seen. induction l as [|y l IH]; intros seen; simpl.
  - rewrite elem_of_nil. tauto.
  - rewrite IH, elem_of_cons. case_decide as Hy.
    + split; [tauto|]. intros [?|[->|?]]; auto.
    + rewrite elem_of_app, list_elem_of_singleton. tauto.
Qed.

Lemma unique_from_NoDup seen l : NoDup seen → NoDup (unique_from seen l).
Proof.
  revert seen. induction l as [|y l IH]; intros seen Hnd; simpl; [done|].
  apply IH. case_decide as Hy; [done|].
  apply NoDup_app. split_and!; [done| |apply NoDup_singleton].
  intros x Hx ->%list_elem_of_singleton. done.
Qed.

Lemma unique_from_head x seen l :
  head seen = Some x → head (unique_from seen l) = Some x.
Proof.
  revert seen. induction l as [|y l IH]; intros seen Hx; simpl; [done|].
  apply IH. case_decide; [done|]. by destruct seen.
Qed.

Lemma unique_head l : head (unique l) = head l.
Proof.
  destruct l as [|x l]; [done|]. unfold unique. simpl.
  by apply unique_from_head.
Qed.

Lemma unique_elem x l : x ∈ unique l ↔ x ∈ l.
Proof. unfold unique. rewrite unique_from_elem, elem_of_nil. tauto. Qed.

Lemma unique_NoDup l : NoDup (unique l).
Proof. apply unique_from_NoDup, NoDup_nil_2. Qed.
End UniqueFacts.

Lemma series_min_sorted l : StronglySorted Z.le l → series_min l = head l.
Proof.
  destruct l as [|t ts]; [done|]. intros Hs. simpl. f_equal.
  apply StronglySorted_inv in Hs as [_ Hall].
  induction Hall as [|x ts Hx Hall IH]; simpl; [done|].
  by rewrite Z.min_l.
Qed.

Lemma series_max_sorted l : StronglySorted Z.le l → series_max l = last l.
Proof.
  destruct l as [|t ts]; [done|]. intros Hs. simpl.
  revert t Hs. induction ts as [|x ts IH]; intros t Hs; [done|].
  apply StronglySorted_inv in Hs as [Hs Hall].
  apply Forall_cons in Hall as [Htx _].
  cbn [foldl]. rewrite Z.max_r by done. by rewrite IH.
Qed.

Lemma series_min_least (m : Z) l :
  m ∈ l → (∀ x, x ∈ l → (m ≤ x)%Z) → series_min l = Some m.
Proof.
  destruct l as [|t ts]; [by intros ?%elem_of_nil|]. simpl.
  intros Hm Hle. f_equal. revert t Hm Hle.
  induction ts as [|x ts IH]; intros t Hm Hle; simpl.
  - by apply list_elem_of_singleton in Hm.
  - apply IH.
    + apply elem_of_cons in Hm as [->|Hm].
      * rewrite Z.min_l; [left|]. apply Hle. right. left.
      * apply elem_of_cons in Hm as [->|Hm]; [|by right].
        rewrite Z.min_r; [left|]. apply Hle. left.
    + intros y Hy. apply Hle.
      apply elem_of_cons in Hy as [->|Hy]; [|by do 2 right].
      destruct (Z.min_spec t x) as [[_ ->]|[_ ->]]; [left|right; left].
Qed.

Lemma series_max_greatest (m : Z) l :
  m ∈ l → (∀ x, x ∈ l → (x ≤ m)%Z) → series_max l = Some m.
Proof.
  destruct l as [|t ts]; [by intros ?%elem_of_nil|]. simpl.
  intros Hm Hle. f_equal. revert t Hm Hle.
  induction ts as [|x ts IH]; intros t Hm Hle; simpl.
  - by apply list_elem_of_singleton in Hm.
  - apply IH.
    + apply elem_of_cons in Hm as [->|Hm].
      * rewrite Z.max_l; [left|]. apply Hle. right. left.
      * apply elem_of_cons in Hm as [->|Hm]; [|by right].
        rewrite Z.max_r; [left|]. apply Hle. left.
    + intros y Hy. apply Hle.
      apply elem_of_cons in Hy as [->|Hy]; [|by do 2 right].
      destruct (Z.max_spec t x) as [[_ ->]|[_ ->]]; [right; left|left].
Qed.

Lemma sorted_last_greatest (l : list Z) (m : Z) :
  StronglySorted Z.le l → last l = Some m → ∀ x, x ∈ l → (x ≤ m)%Z.
Proof.
  induction 1 as [|t ts Hs IH Hall]; intros Hlast x Hx.
  - by apply elem_of_nil in Hx.
  - destruct ts as [|t' ts'].
    + apply list_elem_of_singleton in Hx as ->. injection Hlast as ->. lia.
    + apply elem_of_cons in Hx as [->|Hx]; [|by apply IH].
      rewrite Forall_forall in Hall. apply Hall.
      by apply last_Some_elem_of.
Qed.

Lemma layout_controls_nil data :
  layout_controls data = inl IndexError ↔ data = [].
Proof.
  unfold layout_controls. split; [|by intros ->].
  pose proof (unique_head (location <$> data)) as Hhead.
  destruct (unique (location <$> data)) as [|first rest]; [|done].
  intros _. by destruct data.
Qed.

(** The controls made of an aggregated dataset: the location selected at
    the start is that of the first row, which is an earliest reading,
    the date range goes from the timestamp of the first row to that of
    the last and so spans every reading, and the dropdown offers each
    location of the dataset once. *)
Theorem layout_controls_of_aggregate rows c :
  layout_controls (aggregate rows) = inr c →
  ∃ r_first r_last,
    head (aggregate rows) = Some r_first ∧
    last (aggregate rows) = Some r_last ∧
    dropdown_value c = [location r_first] ∧
    picker_start_date c = Some (timestamp r_first) ∧
    picker_end_date c = Some (timestamp r_last) ∧
    (∀ r, r ∈ aggregate rows →
          (timestamp r_first ≤ timestamp r ≤ timestamp r_last)%Z) ∧
    NoDup (dropdown_options c).*2 ∧
    (∀ l, l ∈ (dropdown_options c).*2 ↔ l ∈ location <$> aggregate rows) ∧
    (∀ o, o ∈ dropdown_options c → o.1 = "Location " +:+ o.2).
Proof.
  pose proof (aggregate_chronological rows) as Hsorted.
  unfold layout_controls.
  pose proof (unique_head (location <$> aggregate rows)) as Hhead.
  pose proof (unique_NoDup (location <$> aggregate rows)) as Hnd.
  pose proof (fun l => unique_elem l (location <$> aggregate rows)) as Hel.
  rewrite (series_min_sorted _ Hsorted), (series_max_sorted _ Hsorted).
  destruct (unique (location <$> aggregate rows)) as [|first rest] eqn:Hu;
    [done|].
  intros [= <-]. cbn [dropdown_value dropdown_options picker_start_date
                       picker_end_date].
  set (data := aggregate rows) in *.
  destruct data as [|r0 data'] eqn:Hdata; [done|].
  destruct (last (r0 :: data')) as [rl|] eqn:Hlast;
    [|by apply last_None in Hlast].
  exists r0, rl. cbn [head] in *. injection Hhead as ->.
  rewrite fmap_last, Hlast.
  set (options := (fun loc => ("Location " +:+ loc, loc)) <$>
                    location r0 :: rest).
  assert (options.*2 = location r0 :: rest) as Hopts.
  { unfold options. rewrite <- list_fmap_compose. apply list_fmap_id. }
  assert (∀ o, o ∈ options → o.1 = "Location " +:+ o.2) as Hlabels.
  { intros o Ho. by apply list_elem_of_fmap in Ho as (loc & -> & _). }
  rewrite <- Hopts in Hnd.
  assert (∀ l, l ∈ options.*2 ↔ l ∈ location <$> r0 :: data') as Hvalues.
  { intros l. rewrite Hopts. apply Hel. }
  split_and!; [done|done|done|done|done| |exact Hnd|exact Hvalues
              |exact Hlabels].
  intros r Hr. split.
  - apply StronglySorted_inv in Hsorted as [_ Hall].
    apply elem_of_cons in Hr as [->|Hr]; [simpl; lia|].
    rewrite Forall_forall in Hall. apply Hall.
    apply list_elem_of_fmap. by exists r.
  - apply (sorted_last_greatest _ _ Hsorted).
    + by rewrite fmap_last, Hlast.
    + apply list_elem_of_fmap. by exists r.
Qed.

Section StartupFacts.
Variable parse_number : string → option Q.
Variable parse_datetime : string → option Z.
Variable datetime_of_number : Q → option Z.
Variable rng : Type.
Variable randint : Z → Z → rng → Z * rng.

Local Abbreviation sensor_pipeline'' :=
  (sensor_pipeline parse_number parse_datetime datetime_of_number).
Local Abbreviation load_and_process_sensor_data'' :=
  (load_and_process_sensor_data parse_number parse_datetime
     datetime_of_number rng randint).

Lemma create_sample_data_places now g :
  place_and_day <$> (create_sample_data rng randint now g).1 =
  list_prod sample_locations (date_range now 30).
Proof.
  rewrite create_sample_data_rows. cbn [fst].
  rewrite fmap_imap. rewrite <- (list_fmap_id (list_prod _ _)) at 2.
  rewrite <- imap_const. apply imap_ext. by intros i [l d] _.
Qed.

Lemma date_range_elem now n x :
  x ∈ date_range now n ↔
  ∃ i, (i < n)%nat ∧ x = now - Z.of_nat (n - 1 - i) * day_ns.
Proof.
  unfold date_range. change (map ?f ?l) with (f <$> l).
  rewrite list_elem_of_fmap. split.
  - intros (i & -> & Hi). apply elem_of_seq in Hi. exists i. split; [lia|done].
  - intros (i & Hi & ->). exists i. split; [done|].
    apply elem_of_seq. lia.
Qed.

(** The controls made of the synthetic dataset. *)
Lemma layout_controls_sample now g :
  layout_controls (create_sample_data rng randint now g).1 =
  inr (FilterControls
         [ ("Location Location A", "Location A");
           ("Location Location B", "Location B");
           ("Location Location C", "Location C") ]
         ["Location A"] (Some (now - 29 * day_ns)) (Some now)).
Proof.
  pose proof (create_sample_data_places now g) as Hplaces.
  set (data := (create_sample_data rng randint now g).1) in *.
  assert (location <$> data =
          (list_prod sample_locations (date_range now 30)).*1) as Hloc.
  { rewrite <- Hplaces, <- list_fmap_compose. done. }
  assert (timestamp <$> data =
          (list_prod sample_locations (date_range now 30)).*2) as Hts.
  { rewrite <- Hplaces, <- list_fmap_compose. done. }
  assert (∀ x, x ∈ timestamp <$> data ↔ x ∈ date_range now 30) as Hel.
  { intros x. rewrite Hts, list_elem_of_fmap. split.
    - intros ([l d] & -> & Hin).
      apply list_elem_of_In, in_prod_iff in Hin as [_ Hin].
      by apply list_elem_of_In.
    - intros Hx. exists ("Location A", x). split; [done|].
      apply list_elem_of_In, in_prod_iff.
      split; [by left|by apply list_elem_of_In]. }
  unfold layout_controls.
  rewrite (series_min_least (now - 29 * day_ns)),
          (series_max_greatest now).
  - rewrite Hloc.
    cbv [sample_locations date_range seq map list_prod fmap list_fmap app
         fst].
    generalize (now - 29 * day_ns). intros z. clear. by vm_compute.
  - apply Hel, date_range_elem. exists 29%nat. split; [lia|].
    unfold day_ns. lia.
  - intros x Hx. apply Hel, date_range_elem in Hx as (i & Hi & ->).
    unfold day_ns. lia.
  - apply Hel, date_range_elem. exists 0%nat. split; [lia|].
    unfold day_ns. lia.
  - intros x Hx. apply Hel, date_range_elem in Hx as (i & Hi & ->).
    unfold day_ns. lia.
Qed.

(** Loading the module raises [IndexError] exactly when the file is
    read and cleaned without an error and gives no aggregated row; the
    synthetic data is not used then. *)
Theorem layout_index_error fs now g path :
  layout_controls (load_and_process_sensor_data'' fs now g path).1 =
    inl IndexError ↔
  sensor_pipeline'' fs path = Ok [].
Proof.
  unfold load_and_process_sensor_data.
  destruct (sensor_pipeline'' fs path) as [df|e]; cbn [fst].
  - rewrite layout_controls_nil. split; [by intros ->|by intros [= ->]].
  - by rewrite layout_controls_sample.
Qed.

(** When the file cannot be loaded, the dashboard starts on the
    synthetic data: three locations are offered, the first is selected,
    and the date range is the thirty days that end now. *)
Theorem layout_controls_fallback fs now g path :
  is_err (sensor_pipeline'' fs path) = true →
  layout_controls (load_and_process_sensor_data'' fs now g path).1 =
  inr (FilterControls
         [ ("Location Location A", "Location A");
           ("Location Location B", "Location B");
           ("Location Location C", "Location C") ]
         ["Location A"] (Some (now - 29 * day_ns)) (Some now)).
Proof.
  intros Herr. unfold load_and_process_sensor_data.
  destruct (sensor_pipeline'' fs path) as [df|e]; [done|].
  apply layout_controls_sample.
Qed.
End StartupFacts.

(** ** The total of the category counts *)

Section CountGroups.
Context {K V : Type} `{EqDecision K}.
Variable leb : K → K → bool.
Variable w : V → nat.

Local Abbreviation weight :=
  (sum_list_with (fun kv : K * list V => sum_list_with w kv.2)).

Lemma weight_cons (kv : K * list V) g :
  weight (kv :: g) = (sum_list_with w kv.2 + weight g)%nat.
Proof. done. Qed.

Lemma add_to_group_weight k v g :
  weight (add_to_group k v g) = (weight g + w v)%nat.
Proof.
  induction g as [|[k' vs] g IH]; [simpl; lia|].
  cbn [add_to_group]. case_decide.
  - rewrite !weight_cons. cbn [snd]. rewrite sum_list_with_app. simpl. lia.
  - rewrite !weight_cons, IH. lia.
Qed.

Lemma group_rows_weight rows g :
  weight (group_rows rows g) = (weight g + sum_list_with w rows.*2)%nat.
Proof.
  revert g. induction rows as [|[k v] rows IH]; intros g; [simpl; lia|].
  cbn [group_rows]. rewrite IH, add_to_group_weight, fmap_cons.
  change (sum_list_with w (?x :: ?l)) with (w x + sum_list_with w l)%nat.
  cbn [snd]. lia.
Qed.

Lemma groupby_weight rows :
  weight (groupby leb rows) = sum_list_with w rows.*2.
Proof.
  rewrite (groupby_perm leb rows), group_rows_weight. done.
Qed.
End CountGroups.

Lemma sum_indicator {V} (P : V → Prop) `{∀ v, Decision (P v)} (l : list V) :
  sum_list_with (fun v => if decide (P v) then 1%nat else 0%nat) l =
  length (filter P l).
Proof.
  induction l as [|v l IH]; [done|]. rewrite filter_cons.
  simpl. case_decide; simpl; lia.
Qed.

Lemma sum_list_with_pointwise {X} (f g : X → nat) (l : list X) :
  (∀ x, f x = g x) → sum_list_with f l = sum_list_with g l.
Proof. intros Hfg. induction l as [|x l IH]; [done|]. simpl. by rewrite Hfg, IH. Qed.

Lemma sum_list_fmap {X} (f : X → nat) (l : list X) :
  sum_list (f <$> l) = sum_list_with f l.
Proof. induction l as [|x l IH]; [done|]. simpl. by rewrite <- IH. Qed.

(** The category counts add up to the number of findings that have both
    a category and a detail: no finding is counted twice, and one without
    a category or without a detail is not counted. *)
Theorem category_counts_total category detail :
  sum_list (count_by_category category detail).*2 =
  length (filter (fun p => notna p.1 = true ∧ notna p.2 = true)
            (zip category detail)).
Proof.
  unfold count_by_category. change (map ?f ?l) with (f <$> l).
  rewrite <- list_fmap_compose, sum_list_fmap.
  set (rows := filter (fun p => notna p.1 = true) (zip category detail)).
  transitivity (sum_list_with (fun v => if decide (notna v = true) then 1%nat
                                         else 0%nat) rows.*2).
  - rewrite <- (groupby_weight cell_leb _ rows).
    apply sum_list_with_pointwise. intros [k vs]. simpl.
    unfold count_notna. by rewrite sum_indicator.
  - rewrite sum_indicator. unfold rows.
    rewrite <- (length_fmap snd (filter _ (zip category detail))).
    f_equal.
    induction (zip category detail) as [|p l IH]; [done|].
    rewrite !filter_cons.
    repeat case_decide; rewrite ?fmap_cons, ?filter_cons; cbn [snd];
      repeat case_decide; rewrite ?IH; try done; tauto.
Qed.

(** ** Instances on the example files *)

Lemma aggregate_skips_incomplete_rows_witness :
  sensor_row_key example_incomplete_row = None ∧
  aggregate (example_clean_rows ++ example_incomplete_row :: []) =
  aggregate (example_clean_rows ++ []).
Proof.
  assert (sensor_row_key example_incomplete_row = None) as Hkey by done.
  split; [exact Hkey|].
  exact (aggregate_skips_incomplete_rows example_clean_rows
           example_incomplete_row [] Hkey).
Defined.

Lemma loaded_rows_are_clean_measurements_witness :
  sensor_pipeline example_number example_datetime example_datetime_of_number
    example_files "sensor_reading.csv" = Ok (aggregate example_clean_rows) ∧
  ∃ all,
    sensor_rows example_number example_datetime example_datetime_of_number
      example_files "sensor_reading.csv" = Ok all ∧
    ∀ r, r ∈ aggregate example_clean_rows →
      unquoted (location r) ∧ unquoted (sensor_id r) ∧
      ∃ x v, x ∈ all ∧
             sr_value_type x = Some v ∧ v ∈ ["P0"; "P1"; "P2"] ∧
             sr_timestamp x = Some (timestamp r) ∧
             sr_location x = Some (location r) ∧
             sr_sensor_id x = Some (sensor_id r).
Proof.
  assert (sensor_pipeline example_number example_datetime
            example_datetime_of_number example_files "sensor_reading.csv" =
          Ok (aggregate example_clean_rows)) as Hload by by vm_compute.
  split; [exact Hload|].
  exact (loaded_rows_are_clean_measurements example_number example_datetime
           example_datetime_of_number example_files "sensor_reading.csv"
           (aggregate example_clean_rows) Hload).
Defined.


Lemma update_figures_absent_selection_witness :
  example_store !! 0%nat = Some example_sensor_frame ∧
  date_bounds example_datetime (Some "T0") (Some "T100") (Some (0, 100)) ∧
  (update_figures example_datetime 0%nat None (Some "T0") (Some "T100")
     example_store).1 = Err TypeError.
Proof.
  assert (example_store !! 0%nat = Some example_sensor_frame) as Hstore
    by by vm_compute.
  assert (date_bounds example_datetime (Some "T0") (Some "T100")
            (Some (0, 100))) as Hbounds by by vm_compute.
  split; [exact Hstore|]. split; [exact Hbounds|].
  exact (update_figures_absent_selection example_datetime example_store
           0%nat example_sensor_frame (Some "T0") (Some "T100")
           (Some (0, 100)) Hstore Hbounds).
Defined.

Lemma update_figures_bad_date_witness :
  example_store !! 0%nat = Some example_sensor_frame ∧
  truthy_str (Some "T0") = true ∧ truthy_str (Some "yesterday") = true ∧
  (Some "T0" ≫= example_datetime = None ∨
   Some "yesterday" ≫= example_datetime = None) ∧
  (update_figures example_datetime 0%nat (Some ["A"]) (Some "T0")
     (Some "yesterday") example_store).1 = Err TypeError.
Proof.
  assert (example_store !! 0%nat = Some example_sensor_frame) as Hstore
    by by vm_compute.
  assert (Some "T0" ≫= example_datetime = None ∨
          Some "yesterday" ≫= example_datetime = None) as Hbad
    by (right; reflexivity).
  split; [exact Hstore|]. split; [reflexivity|]. split; [reflexivity|].
  split; [exact Hbad|].
  exact (update_figures_bad_date example_datetime example_store 0%nat
           example_sensor_frame (Some ["A"]) (Some "T0") (Some "yesterday")
           Hstore eq_refl eq_refl Hbad).
Defined.

Lemma statistics_counts_add_up_witness :
  example_store !! 0%nat = Some example_sensor_frame ∧
  date_bounds example_datetime (Some "T0") (Some "T100") (Some (0, 100)) ∧
  ["A"; "B"] ≠ [] ∧ NoDup ["A"; "B"] ∧
  ∃ rows daily blocks counts,
    (update_figures example_datetime 0%nat (Some ["A"; "B"]) (Some "T0")
       (Some "T100") example_store).1 =
      Ok (LineChart "Air Quality Index Over Time" rows, daily, Div blocks) ∧
    Forall2 shows_count counts blocks ∧
    sum_list counts = length rows.
Proof.
  assert (example_store !! 0%nat = Some example_sensor_frame) as Hstore
    by by vm_compute.
  assert (date_bounds example_datetime (Some "T0") (Some "T100")
            (Some (0, 100))) as Hbounds by by vm_compute.
  assert (["A"; "B"] ≠ ([] : list string)) as Hne by done.
  assert (NoDup ["A"; "B"]) as Hnd by compute_done.
  split; [exact Hstore|]. split; [exact Hbounds|].
  split; [exact Hne|]. split; [exact Hnd|].
  exact (statistics_counts_add_up example_datetime example_store 0%nat
           example_sensor_frame ["A"; "B"] (Some "T0") (Some "T100")
           (Some (0, 100)) Hstore Hbounds Hne Hnd).
Defined.

Lemma overview_points_among_metrics_witness :
  research_charts example_number example_files = Ok example_charts ∧
  ∀ p, p ∈ figure_points example_charts.2 ↔
       p ∈ figure_points example_charts.1 ∧ p.1 ∈ overview_parameters.
Proof.
  assert (research_charts example_number example_files = Ok example_charts)
    as Hcharts by by vm_compute.
  split; [exact Hcharts|].
  exact (overview_points_among_metrics example_number example_files
           example_charts Hcharts).
Defined.

Lemma layout_controls_of_aggregate_witness :
  layout_controls (aggregate example_clean_rows) =
    inr (FilterControls [("Location B", "B"); ("Location A", "A")] ["B"]
           (Some 50) (Some 100)) ∧
  ∃ r_first r_last,
    head (aggregate example_clean_rows) = Some r_first ∧
    last (aggregate example_clean_rows) = Some r_last ∧
    ["B"] = [location r_first] ∧
    Some 50 = Some (timestamp r_first) ∧
    Some 100 = Some (timestamp r_last) ∧
    (∀ r, r ∈ aggregate example_clean_rows →
          (timestamp r_first ≤ timestamp r ≤ timestamp r_last)%Z) ∧
    NoDup [("Location B", "B"); ("Location A", "A")].*2 ∧
    (∀ l, l ∈ [("Location B", "B"); ("Location A", "A")].*2 ↔
          l ∈ location <$> aggregate example_clean_rows) ∧
    (∀ o, o ∈ [("Location B", "B"); ("Location A", "A")] →
          o.1 = "Location " +:+ o.2).
Proof.
  assert (layout_controls (aggregate example_clean_rows) =
          inr (FilterControls [("Location B", "B"); ("Location A", "A")]
                 ["B"] (Some 50) (Some 100))) as Hlayout by by vm_compute.
  split; [exact Hlayout|].
  exact (layout_controls_of_aggregate example_clean_rows _ Hlayout).
Defined.

Lemma layout_controls_fallback_witness :
  is_err (sensor_pipeline example_number example_datetime
            example_datetime_of_number example_files "absent.csv") = true ∧
  layout_controls
    (load_and_process_sensor_data example_number example_datetime
       example_datetime_of_number Z example_randint example_files 0 42
       "absent.csv").1 =
  inr (FilterControls
         [ ("Location Location A", "Location A");
           ("Location Location B", "Location B");
           ("Location Location C", "Location C") ]
         ["Location A"] (Some (0 - 29 * day_ns)) (Some 0)).
Proof.
  assert (is_err (sensor_pipeline example_number example_datetime
                    example_datetime_of_number example_files "absent.csv")
          = true) as Herr by by vm_compute.
  split; [exact Herr|].
  exact (layout_controls_fallback example_number example_datetime
           example_datetime_of_number Z example_randint example_files 0 42
           "absent.csv" Herr).
Defined.

(** A file without a measurement row is loaded without an error, and the
    layout then raises. *)
Example layout_without_measurements :
  layout_controls
    (load_and_process_sensor_data example_number example_datetime
       example_datetime_of_number Z example_randint example_humidity_files
       0 42 "sensor_reading.csv").1 = inl IndexError.
Proof. by vm_compute. Qed.
